(** * scm-bitbucket: the normalization layer of [index.js]

    A shallow embedding of the Bitbucket adapter of Screwdriver
    ([index.js]) and the properties of its specification: the opaque
    reference [hostname:repoId:branch], webhook normalization, build
    status translation, permission aggregation and the read lookups.

    Conventions of the embedding.
    - A JavaScript string is a [string]: a sequence of 8-bit code units.
      The program only inspects ASCII delimiters ([:], [/], [.], [#]), so
      the byte view and the UTF-16 view agree on every split it performs.
    - A JavaScript value (a parsed JSON payload, or [undefined]) is a
      [value]; numbers are integers.
    - A call either returns or throws: [completion].  A promise, once
      settled, is [Fulfilled] or [Rejected]: [promise].
    - The transport ([this.breaker.runCommand]), [url.parse],
      [decodeURIComponent] and the checkout-URL regular expression of
      [screwdriver-data-schema] are collaborators that live outside
      [index.js]; they are the Variables of Section [Adapter]. *)

From Stdlib Require Import Ascii.
From stdpp Require Import base option list strings gmap pretty.

Local Open Scope Z_scope.

(** ** JavaScript values *)

#[warnings="-register-all"]
Inductive value :=
| VUndefined
| VNull
| VBool (b : bool)
| VNum (n : Z)
| VStr (s : string)
| VArr (items : list value)
| VObj (fields : list (string * value)).

(** The errors the program can raise.  [TypeError] and [URIError] come
    from the runtime, [InvalidSegment] from the assertion of
    [hoek.reach]; the next two are the [new Error(...)] of the source,
    kept by the parts of their message rather than as the formatted
    text. *)
Inductive error :=
| TypeError
| URIError
| InvalidSegment (key chain : string)
    (* hoek: new Error(`Invalid segment ${key} in reach path  ${chain}`) *)
| CannotFindRepository (checkoutUrl : string)
    (* new Error(`Cannot find repository ${config.checkoutUrl}`) *)
| StatusCodeError (statusCode : Z) (body : value)
    (* new Error(`STATUS CODE ${statusCode}: ${JSON.stringify(body)}`) *)
| TransportError (message : string).
    (* a rejection produced by the transport itself *)

Inductive completion (A : Type) :=
| Return (a : A)
| Throw (e : error).
Arguments Return {A} a.
Arguments Throw {A} e.

Inductive promise (A : Type) :=
| Fulfilled (a : A)
| Rejected (e : error).
Arguments Fulfilled {A} a.
Arguments Rejected {A} e.

(** Sequencing of calls: the first throw aborts the rest. *)
Global Instance completion_ret : MRet completion := fun A a => Return a.
Global Instance completion_bind : MBind completion := fun A B k c =>
  match c with
  | Return a => k a
  | Throw e => Throw e
  end.

(** [Promise.resolve(v)] *)
Definition Promise_resolve {A} (a : A) : promise A := Fulfilled a.

(** The settlement of [p.then(cb)] for a callback that returns or throws. *)
Definition settle_then {A B} (p : promise A) (cb : A -> completion B) : promise B :=
  match p with
  | Fulfilled a =>
      match cb a with
      | Return b => Fulfilled b
      | Throw e => Rejected e
      end
  | Rejected e => Rejected e
  end.

(** The spec's error taxonomy, read on the errors of the source:
    NotFoundError is the "Cannot find repository" error, UpstreamError is
    the "STATUS CODE" error. *)
Definition is_NotFoundError (e : error) : bool :=
  match e with CannotFindRepository _ => true | _ => false end.

Definition is_UpstreamError (e : error) : bool :=
  match e with StatusCodeError _ _ => true | _ => false end.

(** ** Strings *)

(** [s.split(sep)] for a one-character separator. *)
Fixpoint split (sep : ascii) (s : string) : list string :=
  match s with
  | EmptyString => [EmptyString]
  | String c s' =>
      if Ascii.eqb c sep then EmptyString :: split sep s'
      else match split sep s' with
           | p :: ps => String c p :: ps
           | [] => [String c EmptyString]
           end
  end.

(** [s.slice(1)] *)
Definition slice1 (s : string) : string :=
  match s with
  | EmptyString => EmptyString
  | String _ s' => s'
  end.

(** [sep] does not occur in [s]. *)
Fixpoint no_sep (sep : ascii) (s : string) : bool :=
  match s with
  | EmptyString => true
  | String c s' => negb (Ascii.eqb c sep) && no_sep sep s'
  end.

Definition colon : ascii := ":"%char.
Definition slash : ascii := "/"%char.
Definition dot : ascii := "."%char.

(** Template-literal conversion [`${v}`] of a value (ToString).  A
    [VNum n] stands for an integer-valued number below 1e21 in
    magnitude, which prints as its decimal digits; larger and fractional
    numbers are outside the model. *)
Fixpoint ToString (v : value) : string :=
  match v with
  | VUndefined => "undefined"
  | VNull => "null"
  | VBool true => "true"
  | VBool false => "false"
  | VNum n => pretty n
  | VStr s => s
  | VArr items =>
      (fix join (l : list value) : string :=
         match l with
         | [] => ""
         | [x] => match x with VUndefined | VNull => "" | _ => ToString x end
         | x :: l' =>
             (match x with VUndefined | VNull => "" | _ => ToString x end)
             +:+ "," +:+ join l'
         end) items
  | VObj _ => "[object Object]"
  end.

(** A possibly missing string as a value: [undefined] when absent. *)
Definition of_opt (o : option string) : value :=
  match o with
  | Some s => VStr s
  | None => VUndefined
  end.

(** ** The opaque reference *)

Record ScmUri := {
  hostname : option string;
  repoId : option string;
  branch : option string
}.

(** [getScmUriParts(scmUri)]: the destructuring assignment takes the first
    three parts of the split; a missing part is [undefined]. *)
Definition getScmUriParts (scmUri : string) : completion ScmUri :=
  let parts := split colon scmUri in
  Return {| hostname := parts !! 0%nat;
            repoId := parts !! 1%nat;
            branch := parts !! 2%nat |}.

(** The serialized form [hostname:repoId:branch] of a reference. *)
Definition composeScmUri (hostname repoId branch : string) : string :=
  hostname +:+ ":" +:+ repoId +:+ ":" +:+ branch.


(** ** Property access *)

(** The own property [key] of an object literal. *)
Fixpoint field (key : string) (fields : list (string * value)) : option value :=
  match fields with
  | [] => None
  | (k, v) :: rest => if String.eqb k key then Some v else field key rest
  end.

(** [v.key].  Reading a property of [undefined] or [null] throws.  The
    keys the program reads this way ([repository], [uuid], [links],
    [html], [href], [display_name], [username], [avatar], [full_name],
    [author], [user], [message], [target], [hash], [data], [values]) are
    not properties of strings, numbers or booleans; on an array only
    [values] can be inherited, as a function, on which the following
    [.some] is as undefined as on [undefined]. *)
Definition get (v : value) (key : string) : completion value :=
  match v with
  | VUndefined | VNull => Throw TypeError
  | VObj fields => Return (default VUndefined (field key fields))
  | _ => Return VUndefined
  end.

(** The property [key] of an object literal built by the program. *)
Definition prop (v : value) (key : string) : value :=
  match v with
  | VObj fields => default VUndefined (field key fields)
  | _ => VUndefined
  end.

(** [v[0]] *)
Definition index0 (v : value) : completion value :=
  match v with
  | VUndefined | VNull => Throw TypeError
  | VArr items => Return (default VUndefined (items !! 0%nat))
  | VObj fields => Return (default VUndefined (field "0" fields))
  | VStr (String c _) => Return (VStr (String c EmptyString))
  | _ => Return VUndefined
  end.

(** The walk of a dot-separated chain along own properties of nested
    objects, [undefined] as soon as a segment is missing: what
    [hoek.reach] returns whenever it returns on a chain of the program
    (see [hoek_reach] below). *)
Fixpoint reach_path (ref : value) (path : list string) : value :=
  match path with
  | [] => ref
  | key :: rest =>
      match ref with
      | VObj fields =>
          match field key fields with
          | Some v => reach_path v rest
          | None => VUndefined
          end
      | _ => VUndefined
      end
  end.

Definition reach (obj : value) (chain : string) : value :=
  reach_path obj (split dot chain).

(** [hoek.reach] once it stands on [Array.prototype.push], a function
    of name [push] and length 1: a segment that the function has not
    fails hoek's assertion.  The other members of a function ([call],
    [apply], ...) and the function itself as a result are outside the
    model; no chain of the program asks for them. *)
Definition reach_in_push (chain : string) (path : list string)
  : completion value :=
  match path with
  | [] => Return VUndefined
  | key :: rest =>
      if String.eqb key "name"
      then Return (match rest with [] => VStr "push" | _ => VUndefined end)
      else if String.eqb key "length"
      then Return (match rest with [] => VNum 1 | _ => VUndefined end)
      else Throw (InvalidSegment key chain)
  end.

(** [hoek.reach(obj, chain)] on a JSON value: the chain is walked while
    the reference is an object or a function that has the key
    ([key in ref]); a falsy reference, a reference that is no object, or
    an object without the key gives [undefined]; a function without the
    key fails an assertion.  Of the segments the program asks for
    ([repository], [owner], [username], [push], [changes], [links],
    [html], [href], [actor], [new], [name], [target], [hash],
    [pullrequest], [destination], [branch], [source], [commit], [id])
    an object has its own properties only, and an array has none but
    the inherited [push]. *)
Fixpoint hoek_reach_path (chain : string) (ref : value) (path : list string)
  : completion value :=
  match path with
  | [] => Return ref
  | key :: rest =>
      match ref with
      | VObj fields =>
          match field key fields with
          | Some v => hoek_reach_path chain v rest
          | None => Return VUndefined
          end
      | VArr _ =>
          if String.eqb key "push" then reach_in_push chain rest
          else Return VUndefined
      | _ => Return VUndefined
      end
  end.

Definition hoek_reach (obj : value) (chain : string) : completion value :=
  hoek_reach_path chain obj (split dot chain).

Definition is_array (v : value) : bool :=
  match v with
  | VArr _ => true
  | _ => false
  end.

(** No segment of the path is [push]. *)
Definition no_push (path : list string) : bool :=
  forallb (fun key => negb (String.eqb key "push")) path.

(** [a === b] where [b] is a string or [undefined]. *)
Definition strict_eq (a b : value) : bool :=
  match a, b with
  | VStr x, VStr y => String.eqb x y
  | VUndefined, VUndefined => true
  | _, _ => false
  end.

(** [items.some(r => r.uuid === uuid)] *)
Fixpoint some_uuid (uuid : value) (items : list value) : completion bool :=
  match items with
  | [] => Return false
  | r :: rest =>
      u ← get r "uuid";
      if strict_eq u uuid then Return true else some_uuid uuid rest
  end.

(** [v.some(r => r.uuid === uuid)]: only an array has [some]. *)
Definition some_has_uuid (v uuid : value) : completion bool :=
  match v with
  | VArr items => some_uuid uuid items
  | _ => Throw TypeError
  end.

(** ** Constants *)

Definition API_URL_V1 : string := "https://api.bitbucket.org/1.0".
Definition API_URL_V2 : string := "https://api.bitbucket.org/2.0".
Definition REPO_URL : string := API_URL_V2 +:+ "/repositories".
Definition USER_URL : string := API_URL_V2 +:+ "/users".
Definition MATCH_COMPONENT_HOSTNAME : nat := 1.
Definition MATCH_COMPONENT_USER : nat := 2.
Definition MATCH_COMPONENT_REPO : nat := 3.
Definition MATCH_COMPONENT_BRANCH : nat := 4.

(** The own keys of [STATE_MAP].  A status that is none of them and
    none of [Object_prototype_names] is looked up to [undefined]; under
    a name of [Object_prototype_names] the source finds the inherited
    member, which is outside the model. *)
Definition Object_prototype_names : list string :=
  ["constructor"; "__defineGetter__"; "__defineSetter__"; "hasOwnProperty";
   "__lookupGetter__"; "__lookupSetter__"; "isPrototypeOf";
   "propertyIsEnumerable"; "toString"; "valueOf"; "__proto__";
   "toLocaleString"].

Definition STATE_MAP : gmap string string :=
  <["SUCCESS" := "SUCCESSFUL"]>
  (<["RUNNING" := "INPROGRESS"]>
  (<["QUEUED" := "INPROGRESS"]>
  (<["FAILURE" := "FAILED"]>
  (<["ABORTED" := "STOPPED"]> ∅)))).

(** ** Requests and responses *)

(** The [options] object handed to the transport; [auth.bearer] is
    [bearer], and [body] is [undefined] for the GET requests. *)
Record options := {
  url : string;
  method : string;
  json : bool;
  body : value;
  bearer : string
}.

Record response := {
  statusCode : Z;
  res_body : value
}.

Definition GET (u token : string) : options :=
  {| url := u; method := "GET"; json := true; body := VUndefined; bearer := token |}.

(** The result of [url.parse]: the three parts the program reads. *)
Record Url := {
  protocol : value;
  url_hostname : value;
  pathname : value
}.

Module RepoInfo.
Record t := {
  hostname : value;
  repo : value;
  branch : string;
  username : value
}.
End RepoInfo.

(** The object built from the destructured array of [Promise.all]; a
    missing element of that array would leave its field [undefined]. *)
Record Permissions := {
  admin : option bool;
  push : option bool;
  pull : option bool
}.

(** ** [Promise.all] *)

Fixpoint first_rejection {A} (ps : list (promise A)) : option error :=
  match ps with
  | [] => None
  | Rejected e :: _ => Some e
  | Fulfilled _ :: rest => first_rejection rest
  end.

Fixpoint fulfilled_values {A} (ps : list (promise A)) : list A :=
  match ps with
  | [] => []
  | Fulfilled a :: rest => a :: fulfilled_values rest
  | Rejected _ :: rest => fulfilled_values rest
  end.

(** [Promise.all(ps)] once every member has settled.  [order] lists the
    members in the order in which they settled: the first rejection in
    that order is the one the aggregate reports.  Members that [order]
    leaves out are taken in list order after the others. *)
Definition Promise_all {A} (order : list nat) (ps : list (promise A))
  : promise (list A) :=
  match first_rejection (omap (fun i => ps !! i) order ++ ps) with
  | Some e => Rejected e
  | None => Fulfilled (fulfilled_values ps)
  end.

(** [a || b] on possibly missing strings: the empty string is falsy. *)
Definition or_else (a b : option string) : option string :=
  match a with
  | Some (String _ _) => a
  | _ => b
  end.

(** ** The checkout command *)

(** Truthiness of a possibly missing string. *)
Definition truthy (o : option string) : bool :=
  match o with
  | Some (String _ _) => true
  | _ => false
  end.

(** [l.join(sep)] *)
Fixpoint join (sep : string) (l : list string) : string :=
  match l with
  | [] => ""
  | [x] => x
  | x :: rest => x +:+ sep +:+ join sep rest
  end.

(** The [command] array of [_getCheckoutCommand], after its pushes. *)
Definition checkout_commands (branch host org repo sha : string)
    (prRef : option string) : list string :=
  let checkoutUrl := "https://" +:+ host +:+ "/" +:+ org +:+ "/" +:+ repo in
  let checkoutRef := if truthy prRef then branch else sha in
  let command : list string := [] in
  let command :=
    command ++ ["echo Cloning " +:+ checkoutUrl +:+ ", on branch " +:+ branch] in
  let command :=
    command ++ [("git clone --quiet --progress --branch " +:+ branch +:+ " ")
                +:+ (checkoutUrl +:+ " $SD_SOURCE_DIR")] in
  let command := command ++ ["echo Reset to SHA " +:+ checkoutRef] in
  let command := command ++ ["git reset --hard " +:+ checkoutRef] in
  let command := command ++ ["echo Setting user name and user email"] in
  let command := command ++ ["git config user.name sd-buildbot"] in
  let command :=
    command ++ ["git config user.email dev-null@screwdriver.cd"] in
  if truthy prRef then
    let command :=
      command ++ ["echo Fetching PR and merging with " +:+ branch] in
    let command :=
      command ++ ["git fetch origin " +:+ ToString (of_opt prRef)] in
    command ++ ["git merge " +:+ sha]
  else command.

Module Checkout.
Record t := {
  name : string;
  command : string
}.
End Checkout.

Definition _getCheckoutCommand (branch host org repo sha : string)
    (prRef : option string) : promise Checkout.t :=
  Promise_resolve
    {| Checkout.name := "sd-checkout-code";
       Checkout.command :=
         join " && " (checkout_commands branch host org repo sha prRef) |}.

(** ** Collaborators for the examples

    Concrete stand-ins for the collaborators, used to run the adapter on
    explicit inputs. *)

Module Sample.

(** A transport that answers from a script: the requests sent so far
    and the settlements still to come. *)
Record net := {
  sent : list options;
  pending : list (promise response)
}.

Definition runCommand (o : options) (w : net) : promise response * net :=
  match pending w with
  | r :: rest => (r, {| sent := sent w ++ [o]; pending := rest |})
  | [] => (Rejected (TransportError "no response"),
           {| sent := sent w ++ [o]; pending := [] |})
  end.

Definition script (rs : list (promise response)) : net :=
  {| sent := []; pending := rs |}.

Definition in_request_order (w : net) : list nat := [0; 1; 2]%nat.
Definition in_reverse_order (w : net) : list nat := [2; 1; 0]%nat.

Definition decodeURIComponent (s : string) : completion string := Return s.

Fixpoint strip_prefix (p s : string) : option string :=
  match p, s with
  | EmptyString, _ => Some s
  | String a p', String b s' =>
      if Ascii.eqb a b then strip_prefix p' s' else None
  | String _ _, EmptyString => None
  end.

(** What follows the first ["://"] of [s]. *)
Fixpoint after_scheme (s : string) : option string :=
  match strip_prefix "://" s with
  | Some rest => Some rest
  | None =>
      match s with
      | EmptyString => None
      | String _ s' => after_scheme s'
      end
  end.

(** Modelled from the spec: the checkout-URL grammar
    [scheme://[user@]hostname/owner/repo[#branchName]] of
    [screwdriver-data-schema], which is not part of [index.js].  The
    match array holds the whole match, the hostname, the owner, the
    repo and the branch suffix with its [#]. *)
Definition CHECKOUT_URL_exec (u : string) : option (list (option string)) :=
  rest ← after_scheme u;
  match split "#"%char rest with
  | location :: suffix =>
      location ← match split "@"%char location with
                 | [l] => Some l
                 | [_; l] => Some l
                 | _ => None
                 end;
      match split slash location with
      | [host; owner; repo] =>
          if bool_decide (host ≠ "" ∧ owner ≠ "" ∧ repo ≠ "") then
            match suffix with
            | [] => Some [Some u; Some host; Some owner; Some repo; None]
            | [b] => Some [Some u; Some host; Some owner; Some repo;
                           Some ("#" +:+ b)]
            | _ => None
            end
          else None
      | _ => None
      end
  | [] => None
  end.

(** A [url.parse] that splits [protocol//hostname/path]. *)
Definition url_parse_string (s : string) : Url :=
  match split slash s with
  | proto :: _ :: host :: path =>
      {| protocol := VStr proto; url_hostname := VStr host;
         pathname :=
           VStr (foldr (fun seg acc => "/" +:+ seg +:+ acc) "" path) |}
  | _ => {| protocol := VNull; url_hostname := VNull; pathname := VStr s |}
  end.

Definition ok (status : Z) (b : value) : promise response :=
  Fulfilled {| statusCode := status; res_body := b |}.

(** A branch lookup that answers with the repository of uuid [u]. *)
Definition branch_body (u : string) : value :=
  VObj [("repository", VObj [("uuid", VStr u)]);
        ("target", VObj [("hash", VStr "40171b67")])].

Definition change (name hash : string) : value :=
  VObj [("new", VObj [("name", VStr name);
                      ("target", VObj [("hash", VStr hash)])])].

Definition push_payload (changes : list value) : value :=
  VObj [("push", VObj [("changes", VArr changes)]);
        ("repository",
         VObj [("links",
                VObj [("html",
                       VObj [("href", VStr "https://bitbucket.org/batman/test")])]);
               ("owner", VObj [("username", VStr "batman")])]);
        ("actor", VObj [("username", VStr "robin")])].

(** A push payload whose [push.changes] is [changes], whatever it is. *)
Definition push_payload_with (changes : value) : value :=
  VObj [("push", VObj [("changes", changes)]);
        ("repository",
         VObj [("links",
                VObj [("html",
                       VObj [("href", VStr "https://bitbucket.org/batman/test")])]);
               ("owner", VObj [("username", VStr "batman")])]);
        ("actor", VObj [("username", VStr "robin")])].

Definition hook_headers (key : string) : gmap string string :=
  <["x-event-key" := key]> (<["x-request-uuid" := "hook-1"]> ∅).

Definition repos (uuids : list string) : value :=
  VObj [("values", VArr (map (fun u => VObj [("uuid", VStr u)]) uuids))].

Definition two_branch_push : value :=
  push_payload [change "main" "abc123"; change "dev" "def456"].

(** A decoder that refuses every percent sign. *)
Definition refuse_percent (s : string) : completion string :=
  if no_sep "%"%char s then Return s else Throw URIError.

Definition pullrequest_payload : value :=
  VObj [("pullrequest",
         VObj [("id", VNum 3);
               ("destination", VObj [("branch", VObj [("name", VStr "master")])]);
               ("source",
                VObj [("branch", VObj [("name", VStr "feature")]);
                      ("commit", VObj [("hash", VStr "40171b67")])])]);
        ("repository",
         VObj [("links",
                VObj [("html",
                       VObj [("href", VStr "https://bitbucket.org/batman/test")])]);
               ("owner", VObj [("username", VStr "batman")])]);
        ("actor", VObj [("username", VStr "robin")])].

(** A payload with the repository link and nothing else. *)
Definition link_only_payload : value :=
  VObj [("repository",
         VObj [("links",
                VObj [("html",
                       VObj [("href",
                              VStr "https://bitbucket.org/batman/test")])])])].

(** The change of a deleted branch: no new state. *)
Definition deletion : value :=
  VObj [("old", VObj [("name", VStr "stale")]); ("new", VNull)].

Definition commit_body (username : string) : value :=
  VObj [("message", VStr "fix the build");
        ("links", VObj [("html", VObj [("href", VStr "https://bitbucket.org/c/1")])]);
        ("author", VObj [("raw", VStr "Robin <robin@example.com>");
                         ("user", VObj [("username", VStr username)])])].

(** A commit whose author is not linked to an account. *)
Definition commit_body_without_user : value :=
  VObj [("message", VStr "fix the build");
        ("links", VObj [("html", VObj [("href", VStr "https://bitbucket.org/c/1")])]);
        ("author", VObj [("raw", VStr "Robin <robin@example.com>")])].

Definition repository_body : value :=
  VObj [("full_name", VStr "batman/test");
        ("links",
         VObj [("html", VObj [("href", VStr "https://bitbucket.org/batman/test")])])].

End Sample.

(** ** The adapter *)

Section Adapter.

(** The state of the transport and of the provider behind it. *)
Variable world : Type.

(** [this.breaker.runCommand(options)]: the request is sent and the
    returned promise settles, with a response or with a failure of the
    transport. *)
Variable runCommand : options -> world -> promise response * world.

(** The order in which the members of a [Promise.all] settle. *)
Variable settle_order : world -> list nat.

(** [url.parse] on a string. *)
Variable url_parse_string : string -> Url.

(** [schema.config.regex.CHECKOUT_URL.exec]: [null] or the match array,
    whose unmatched groups are [undefined]. *)
Variable CHECKOUT_URL_exec : string -> option (list (option string)).

Variable decodeURIComponent : string -> completion string.

(** A promise that settles by talking to the transport. *)
Definition Async (A : Type) : Type := world -> promise A * world.

(** [p.then(cb)] *)
Definition then_ {A B} (p : Async A) (cb : A -> completion B) : Async B :=
  fun w => let (r, w') := p w in (settle_then r cb, w').

(** [p.then(cb)] for a callback that returns a promise. *)
Definition then_async {A B} (p : Async A) (cb : A -> completion (Async B))
  : Async B :=
  fun w =>
    match p w with
    | (Fulfilled a, w') =>
        match cb a with
        | Return q => q w'
        | Throw e => (Rejected e, w')
        end
    | (Rejected e, w') => (Rejected e, w')
    end.

(** [url.parse(v)]: throws unless [v] is a string. *)
Definition url_parse (v : value) : completion Url :=
  match v with
  | VStr s => Return (url_parse_string s)
  | _ => Throw TypeError
  end.

(** [matched[i]] of a match array. *)
Definition group (matched : list (option string)) (i : nat) : option string :=
  mjoin (matched !! i).

Definition getRepoInfo (checkoutUrl : string) : completion RepoInfo.t :=
  match CHECKOUT_URL_exec checkoutUrl with
  | None => Throw TypeError
  | Some matched =>
      branch ← match group matched MATCH_COMPONENT_BRANCH with
               | Some b => Return (slice1 b)
               | None => Throw TypeError
               end;
      Return {| RepoInfo.hostname := of_opt (group matched MATCH_COMPONENT_HOSTNAME);
                RepoInfo.repo := of_opt (group matched MATCH_COMPONENT_REPO);
                RepoInfo.branch := branch;
                RepoInfo.username := of_opt (group matched MATCH_COMPONENT_USER) |}
  end.

(** The [.then] callback of [_parseUrl]. *)
Definition _parseUrl_then (checkoutUrl : string) (repoInfo : RepoInfo.t)
    (response : response) : completion string :=
  if statusCode response =? 404 then Throw (CannotFindRepository checkoutUrl)
  else if negb (statusCode response =? 200)
  then Throw (StatusCodeError (statusCode response) (res_body response))
  else
    repository ← get (res_body response) "repository";
    uuid ← get repository "uuid";
    Return ((ToString (RepoInfo.hostname repoInfo) +:+ ":"
               +:+ ToString (RepoInfo.username repoInfo))
            +:+ ("/" +:+ ToString uuid +:+ ":" +:+ RepoInfo.branch repoInfo)).

Definition _parseUrl (checkoutUrl token : string) : completion (Async string) :=
  repoInfo ← getRepoInfo checkoutUrl;
  let branchUrl :=
    REPO_URL +:+ "/" +:+ ToString (RepoInfo.username repoInfo)
      +:+ "/" +:+ ToString (RepoInfo.repo repoInfo)
      +:+ "/refs/branches/" +:+ RepoInfo.branch repoInfo in
  Return (then_ (runCommand (GET branchUrl token))
                (_parseUrl_then checkoutUrl repoInfo)).

(** The checkout URL that [_parseHook] synthesizes. *)
Definition hook_checkoutUrl (link : Url) (repoOwner : value) : value :=
  VStr ((ToString (protocol link) +:+ "//" +:+ ToString repoOwner)
        +:+ ("@" +:+ ToString (url_hostname link)
               +:+ ToString (pathname link) +:+ ".git")).

(** [_parseHook(headers, payload)]: [parsed] is the object under
    construction, [None] is the resolved [null]. *)
Definition _parseHook (headers : gmap string string) (payload : value)
  : completion (promise (option (gmap string value))) :=
  parts ← match headers !! "x-event-key" with
          | Some key => Return (split colon key)
          | None => Throw TypeError
          end;
  let typeHeader := of_opt (parts !! 0%nat) in
  let actionHeader := of_opt (parts !! 1%nat) in
  let parsed : gmap string value := ∅ in
  repoOwner ← hoek_reach payload "repository.owner.username";
  let parsed := <["hookId" := of_opt (headers !! "x-request-uuid")]> parsed in
  if strict_eq typeHeader (VStr "repo") then
    if negb (strict_eq actionHeader (VStr "push")) then
      Return (Promise_resolve None)
    else
      changes ← hoek_reach payload "push.changes";
      href ← hoek_reach payload "repository.links.html.href";
      link ← url_parse href;
      let parsed := <["type" := VStr "repo"]> parsed in
      let parsed := <["action" := VStr "push"]> parsed in
      username ← hoek_reach payload "actor.username";
      let parsed := <["username" := username]> parsed in
      let parsed := <["checkoutUrl" := hook_checkoutUrl link repoOwner]> parsed in
      change ← index0 changes;
      name ← hoek_reach change "new.name";
      let parsed := <["branch" := name]> parsed in
      change ← index0 changes;
      hash ← hoek_reach change "new.target.hash";
      let parsed := <["sha" := hash]> parsed in
      Return (Promise_resolve (Some parsed))
  else if strict_eq typeHeader (VStr "pullrequest") then
    let pr (parsed : gmap string value) :=
      href ← hoek_reach payload "repository.links.html.href";
      link ← url_parse href;
      let parsed := <["type" := VStr "pr"]> parsed in
      username ← hoek_reach payload "actor.username";
      let parsed := <["username" := username]> parsed in
      let parsed := <["checkoutUrl" := hook_checkoutUrl link repoOwner]> parsed in
      branch ← hoek_reach payload "pullrequest.destination.branch.name";
      let parsed := <["branch" := branch]> parsed in
      hash ← hoek_reach payload "pullrequest.source.commit.hash";
      let parsed := <["sha" := hash]> parsed in
      id ← hoek_reach payload "pullrequest.id";
      let parsed := <["prNum" := id]> parsed in
      ref ← hoek_reach payload "pullrequest.source.branch.name";
      let parsed := <["prRef" := ref]> parsed in
      Return (Promise_resolve (Some parsed)) in
    if strict_eq actionHeader (VStr "created") then
      pr (<["action" := VStr "opened"]> parsed)
    else if strict_eq actionHeader (VStr "updated") then
      pr (<["action" := VStr "synchronized"]> parsed)
    else if strict_eq actionHeader (VStr "fullfilled")
            || strict_eq actionHeader (VStr "rejected") then
      pr (<["action" := VStr "closed"]> parsed)
    else Return (Promise_resolve None)
  else Return (Promise_resolve None).

(** The status check shared by the GET lookups: anything but 200 throws. *)
Definition expect_200 (response : response) : completion unit :=
  if negb (statusCode response =? 200)
  then Throw (StatusCodeError (statusCode response) (res_body response))
  else Return tt.

(** The object that [_decorateAuthor] resolves to. *)
Definition author_of (body : value) : completion value :=
  links ← get body "links";
  html ← get links "html";
  href ← get html "href";
  name ← get body "display_name";
  username ← get body "username";
  links ← get body "links";
  avatar ← get links "avatar";
  avatar_href ← get avatar "href";
  Return (VObj [("url", href); ("name", name); ("username", username);
                ("avatar", avatar_href)]).

Definition _decorateAuthor (username : value) (token : string)
  : completion (Async value) :=
  let options := GET (USER_URL +:+ "/" +:+ ToString username) token in
  Return (then_ (runCommand options)
            (fun response =>
               let body := res_body response in
               _ ← expect_200 response;
               author_of body)).

(** The object that [_decorateCommit] resolves to, once the author is
    decorated. *)
Definition commit_of (body author : value) : completion value :=
  links ← get body "links";
  html ← get links "html";
  href ← get html "href";
  message ← get body "message";
  Return (VObj [("url", href); ("message", message); ("author", author)]).

Definition _decorateCommit (sha scmUri token : string)
  : completion (Async value) :=
  scm ← getScmUriParts scmUri;
  let options :=
    GET (REPO_URL +:+ "/" +:+ ToString (of_opt (repoId scm))
           +:+ "/commit/" +:+ sha) token in
  Return (then_async (runCommand options)
            (fun response =>
               let body := res_body response in
               _ ← expect_200 response;
               author ← get body "author";
               user ← get author "user";
               username ← get user "username";
               decorated ← _decorateAuthor username token;
               Return (then_ decorated (commit_of body)))).

Definition _getCommitSha (scmUri token : string) : completion (Async value) :=
  scm ← getScmUriParts scmUri;
  let branchUrl :=
    REPO_URL +:+ "/" +:+ ToString (of_opt (repoId scm))
      +:+ "/refs/branches/" +:+ ToString (of_opt (branch scm)) in
  Return (then_ (runCommand (GET branchUrl token))
            (fun response =>
               _ ← expect_200 response;
               target ← get (res_body response) "target";
               get target "hash")).

Definition _getFile (scmUri path token : string) (ref : option string)
  : completion (Async value) :=
  scm ← getScmUriParts scmUri;
  let branch := or_else ref (branch scm) in
  let fileUrl :=
    API_URL_V1 +:+ "/repositories/" +:+ ToString (of_opt (repoId scm))
      +:+ "/src/" +:+ ToString (of_opt branch) +:+ "/" +:+ path in
  Return (then_ (runCommand (GET fileUrl token))
            (fun response =>
               _ ← expect_200 response;
               get (res_body response) "data")).

(** The object that [_getPermissions] builds from the array of
    [Promise.all]. *)
Definition permissions_of (l : list bool) : completion Permissions :=
  Return {| admin := l !! 0%nat; push := l !! 1%nat; pull := l !! 2%nat |}.

(** The URL that [getPerm] queries for a scope. *)
Definition getPerm_url (owner : value) (desiredAccess : string) : string :=
  let u := API_URL_V2 +:+ "/repositories/" +:+ ToString owner in
  if String.eqb desiredAccess "admin" then u +:+ "?role=admin"
  else if String.eqb desiredAccess "push" then u +:+ "?role=contributor"
  else u.

(** The [.then] callback of [getPerm]. *)
Definition getPerm_then (uuid : value) (response : response) : completion bool :=
  _ ← expect_200 response;
  values ← get (res_body response) "values";
  some_has_uuid values uuid.

Definition getPerm (repoId : option string) (desiredAccess token : string)
  : completion (Async bool) :=
  parts ← match repoId with
          | Some r => Return (split slash r)
          | None => Throw TypeError
          end;
  let owner := of_opt (parts !! 0%nat) in
  let uuid := of_opt (parts !! 1%nat) in
  Return (then_ (runCommand (GET (getPerm_url owner desiredAccess) token))
                (getPerm_then uuid)).

Definition _getPermissions (scmUri token : string)
  : completion (Async Permissions) :=
  scm ← getScmUriParts scmUri;
  q_admin ← getPerm (repoId scm) "admin" token;
  q_push ← getPerm (repoId scm) "push" token;
  q_pull ← getPerm (repoId scm) "pull" token;
  Return (fun w : world =>
    let (r_admin, w1) := (q_admin : Async bool) w in
    let (r_push, w2) := (q_push : Async bool) w1 in
    let (r_pull, w3) := (q_pull : Async bool) w2 in
    (settle_then (Promise_all (settle_order w3) [r_admin; r_push; r_pull])
                 permissions_of,
     w3)).

(** The [body] of the status request. *)
Definition status_body (sha buildStatus targetUrl : string)
    (jobName : option string) : value :=
  VObj [("url", VStr targetUrl);
        ("state", of_opt (STATE_MAP !! buildStatus));
        ("key", VStr sha);
        ("description",
         VStr (match jobName with
               | Some (String _ _ as j) => "Screwdriver/" +:+ j
               | _ => "Screwdriver"
               end))].

(** The [options] of [_updateCommitStatus]. *)
Definition _updateCommitStatus_options
    (scmUri sha buildStatus token targetUrl : string) (jobName : option string)
  : completion options :=
  scm ← getScmUriParts scmUri;
  let u := REPO_URL +:+ "/" +:+ ToString (of_opt (repoId scm))
             +:+ "/commit/" +:+ sha +:+ "/statuses/build" in
  let b := status_body sha buildStatus targetUrl jobName in
  decoded ← decodeURIComponent token;
  Return {| url := u; method := "POST"; json := true;
            body := b; bearer := decoded |}.

Definition _updateCommitStatus
    (scmUri sha buildStatus token targetUrl : string) (jobName : option string)
  : completion (Async response) :=
  options ← _updateCommitStatus_options scmUri sha buildStatus token targetUrl
              jobName;
  Return (then_ (runCommand options)
            (fun response =>
               if negb (statusCode response =? 201)
                  && negb (statusCode response =? 200)
               then Throw (StatusCodeError (statusCode response)
                                           (res_body response))
               else Return response)).

(** The action table of the [pullrequest] category as the code has it:
    the two spellings differ in the third entry. *)
Definition pr_action (actionHeader : string) : option string :=
  if String.eqb actionHeader "created" then Some "opened"
  else if String.eqb actionHeader "updated" then Some "synchronized"
  else if String.eqb actionHeader "fullfilled" then Some "closed"
  else if String.eqb actionHeader "rejected" then Some "closed"
  else None.

(** [outcome] is a resolved repo/push event that reports the branch and
    the commit of [change]. *)
Definition reports_push_of
    (outcome : completion (promise (option (gmap string value))))
    (change : value) : Prop :=
  exists parsed : gmap string value,
    outcome = Return (Fulfilled (Some parsed)) /\
    parsed !! "type" = Some (VStr "repo") /\
    parsed !! "action" = Some (VStr "push") /\
    parsed !! "branch" = Some (reach change "new.name") /\
    parsed !! "sha" = Some (reach change "new.target.hash").

(** [op] sends one GET request and is rejected with the status error
    whenever the response to it is not a 200. *)
Definition rejects_non_200 {A} (op : completion (Async A)) : Prop :=
  exists (request : options) (p : Async A),
    op = Return p /\
    method request = "GET" /\
    forall w response w',
      runCommand request w = (Fulfilled response, w') ->
      statusCode response <> 200 ->
      p w = (Rejected (StatusCodeError (statusCode response)
                                       (res_body response)), w').

(** [op] sends one GET request, is rejected with the status error
    whenever the response to it is not a 200, and settles as [read] of
    the body when it is. *)
Definition reads_through {A} (op : completion (Async A))
    (read : value -> completion A) : Prop :=
  exists (request : options) (p : Async A),
    op = Return p /\
    method request = "GET" /\
    forall w response w',
      runCommand request w = (Fulfilled response, w') ->
      (statusCode response <> 200 ->
       p w = (Rejected (StatusCodeError (statusCode response)
                                        (res_body response)), w')) /\
      (statusCode response = 200 ->
       p w = (settle_then (Fulfilled (res_body response)) read, w')).

(** The build statuses and the wire states they are sent as. *)
Definition status_table : list (string * string) :=
  [("SUCCESS", "SUCCESSFUL"); ("RUNNING", "INPROGRESS");
   ("QUEUED", "INPROGRESS"); ("FAILURE", "FAILED"); ("ABORTED", "STOPPED")].

(** Reading a property of [v] does not throw. *)
Definition readable (v : value) : bool :=
  match v with
  | VUndefined | VNull => false
  | _ => true
  end.

(** The three scope queries of [_getPermissions] for [owner], run from
    [w] in the order in which they are sent: the settlements of the
    transport and the state it is left in. *)
Definition scope_queries (owner : value) (token : string) (w : world)
  : list (promise response) * world :=
  let a := runCommand (GET (getPerm_url owner "admin") token) w in
  let b := runCommand (GET (getPerm_url owner "push") token) (snd a) in
  let c := runCommand (GET (getPerm_url owner "pull") token) (snd b) in
  ([fst a; fst b; fst c], snd c).

(** [ref] is the reference resolved for [checkoutUrl] by a lookup that
    takes the transport from [w] to [w']: the hostname and the owner of
    the URL, the uuid of the 200 response, and the branch suffix
    without its leading separator. *)
Definition resolved_reference (checkoutUrl : string) (w : world)
    (ref : string) (w' : world) : Prop :=
  exists matched suffix request response repository uuid,
    CHECKOUT_URL_exec checkoutUrl = Some matched /\
    group matched MATCH_COMPONENT_BRANCH = Some suffix /\
    runCommand request w = (Fulfilled response, w') /\
    statusCode response = 200 /\
    get (res_body response) "repository" = Return repository /\
    get repository "uuid" = Return uuid /\
    let host := ToString (of_opt (group matched MATCH_COMPONENT_HOSTNAME)) in
    let owner := ToString (of_opt (group matched MATCH_COMPONENT_USER)) in
    ref = composeScmUri host (owner +:+ "/" +:+ ToString uuid) (slice1 suffix) /\
    (no_sep colon host = true ->
     no_sep colon (owner +:+ "/" +:+ ToString uuid) = true ->
     no_sep colon (slice1 suffix) = true ->
     getScmUriParts ref
     = Return {| hostname := Some host;
                 repoId := Some (owner +:+ "/" +:+ ToString uuid);
                 branch := Some (slice1 suffix) |}).

(** The three requests of the scopes admin, push and pull for [owner],
    spelt out. *)
Definition scope_requests (owner : value) (token : string) : list options :=
  [GET ("https://api.bitbucket.org/2.0/repositories/" +:+ ToString owner
          +:+ "?role=admin") token;
   GET ("https://api.bitbucket.org/2.0/repositories/" +:+ ToString owner
          +:+ "?role=contributor") token;
   GET ("https://api.bitbucket.org/2.0/repositories/" +:+ ToString owner)
       token].

(** The requests sent one after the other from [w]: the settlements of
    the transport and the state it is left in. *)
Fixpoint send_all (requests : list options) (w : world)
  : list (promise response) * world :=
  match requests with
  | [] => ([], w)
  | request :: rest =>
      let (r, w1) := runCommand request w in
      let (rs, w2) := send_all rest w1 in
      (r :: rs, w2)
  end.

(** What [_getPermissions] promises of its asynchronous part [p], run
    from [w]: the three scope requests are sent in the order admin,
    push, pull, and answered by the membership test of the uuid; a
    permission object has its three fields; a response that is not a
    2xx rejects the aggregate, with the error of one of the rejected
    queries; and when the transport answers all three queries with
    readable bodies, a rejection is a status error. *)
Definition all_or_nothing (scmUri token : string) (p : Async Permissions)
    (w : world) : Prop :=
  exists rid : string,
    split colon scmUri !! 1%nat = Some rid /\
    let owner := of_opt (split slash rid !! 0%nat) in
    let uuid := of_opt (split slash rid !! 1%nat) in
    let settled := fst (send_all (scope_requests owner token) w) in
    let answers := (fun r => settle_then r (getPerm_then uuid)) <$> settled in
    snd (p w) = snd (send_all (scope_requests owner token) w) /\
    (forall response items,
        statusCode response = 200 ->
        get (res_body response) "values" = Return (VArr items) ->
        forallb readable items = true ->
        getPerm_then uuid response
        = Return (existsb (fun r => strict_eq (prop r "uuid") uuid) items)) /\
    (forall perms,
        fst (p w) = Fulfilled perms ->
        exists x y z,
          answers = [Fulfilled x; Fulfilled y; Fulfilled z] /\
          perms = {| admin := Some x; push := Some y; pull := Some z |}) /\
    (forall response,
        Fulfilled response ∈ settled ->
        ~ (200 <= statusCode response < 300) ->
        Rejected (StatusCodeError (statusCode response) (res_body response))
          ∈ answers /\
        exists e, fst (p w) = Rejected e /\ Rejected e ∈ answers) /\
    ((forall r, r ∈ settled ->
                exists response,
                  r = Fulfilled response /\
                  (statusCode response = 200 ->
                   exists ok, getPerm_then uuid response = Return ok)) ->
     forall e, fst (p w) = Rejected e -> is_UpstreamError e = true).

(** ** The rest of the adapter *)

(** The object that [_decorateUrl] resolves to: the link and the name
    come from the response, the branch from the reference. *)
Definition url_of (scm : ScmUri) (body : value) : completion value :=
  links ← get body "links";
  html ← get links "html";
  href ← get html "href";
  full_name ← get body "full_name";
  Return (VObj [("url", href); ("name", full_name);
                ("branch", of_opt (branch scm))]).

Definition _decorateUrl (scmUri token : string) : completion (Async value) :=
  scm ← getScmUriParts scmUri;
  let options :=
    GET (REPO_URL +:+ "/" +:+ ToString (of_opt (repoId scm))) token in
  Return (then_ (runCommand options)
            (fun response =>
               let body := res_body response in
               _ ← expect_200 response;
               url_of scm body)).

(** ** Predicates of the further properties *)

(** A rejection of the transport for [request] is the rejection of [p],
    and the transport is left as that one request left it. *)
Definition surfaces_rejection {A} (p : Async A) (request : options) : Prop :=
  forall w e w',
    runCommand request w = (Rejected e, w') -> p w = (Rejected e, w').

(** [outcome] is a resolved event whose fields are those of a pull
    request of [payload] under [action]. *)
Definition reports_pr_of
    (outcome : completion (promise (option (gmap string value))))
    (payload : value) (action : string) : Prop :=
  exists parsed : gmap string value,
    outcome = Return (Fulfilled (Some parsed)) /\
    parsed !! "type" = Some (VStr "pr") /\
    parsed !! "action" = Some (VStr action) /\
    parsed !! "username" = Some (reach payload "actor.username") /\
    parsed !! "branch"
    = Some (reach payload "pullrequest.destination.branch.name") /\
    parsed !! "sha" = Some (reach payload "pullrequest.source.commit.hash") /\
    parsed !! "prNum" = Some (reach payload "pullrequest.id") /\
    parsed !! "prRef" = Some (reach payload "pullrequest.source.branch.name").

(** The shape of every event that [_parseHook] resolves to: the hook id
    is the request-uuid header, the event is a repo push without pull
    request fields or a pull request with one of the three actions, and
    the checkout URL is a string. *)
Definition well_formed_event (headers : gmap string string)
    (parsed : gmap string value) : Prop :=
  parsed !! "hookId" = Some (of_opt (headers !! "x-request-uuid")) /\
  (exists u, parsed !! "checkoutUrl" = Some (VStr u)) /\
  is_Some (parsed !! "username") /\
  is_Some (parsed !! "branch") /\
  is_Some (parsed !! "sha") /\
  ((parsed !! "type" = Some (VStr "repo") /\
    parsed !! "action" = Some (VStr "push") /\
    parsed !! "prNum" = None /\
    parsed !! "prRef" = None) \/
   (parsed !! "type" = Some (VStr "pr") /\
    (exists action,
        parsed !! "action" = Some (VStr action) /\
        action ∈ ["opened"; "synchronized"; "closed"]) /\
    is_Some (parsed !! "prNum") /\
    is_Some (parsed !! "prRef"))).

(** The username that [_decorateCommit] reads off a commit:
    [body.author.user.username]. *)
Definition author_username (body : value) : completion value :=
  author ← get body "author";
  user ← get author "user";
  get user "username".

(** ** Lemmas on [split] *)

Lemma split_nonempty sep s : split sep s <> [].
Proof.
  destruct s as [|c s]; simpl; [discriminate|].
  destruct (Ascii.eqb c sep); [discriminate|].
  destruct (split sep s); discriminate.
Qed.

Lemma split_no_sep sep s : no_sep sep s = true -> split sep s = [s].
Proof.
  induction s as [|c s IH]; simpl; [reflexivity|].
  intros H. apply andb_prop in H as [Hc Hs].
  apply negb_true_iff in Hc. rewrite Hc, (IH Hs). reflexivity.
Qed.

Lemma split_app_sep sep s t :
  no_sep sep s = true ->
  split sep (s +:+ String sep t) = s :: split sep t.
Proof.
  induction s as [|c s IH]; simpl.
  - intros _. rewrite Ascii.eqb_refl. reflexivity.
  - intros H. apply andb_prop in H as [Hc Hs].
    apply negb_true_iff in Hc. rewrite Hc, (IH Hs). reflexivity.
Qed.

Lemma split_compose h r b :
  no_sep colon h = true -> no_sep colon r = true -> no_sep colon b = true ->
  split colon (composeScmUri h r b) = [h; r; b].
Proof.
  intros Hh Hr Hb. unfold composeScmUri.
  change (":" +:+ r +:+ ":" +:+ b) with (String colon (r +:+ String colon b)).
  rewrite (split_app_sep _ _ _ Hh), (split_app_sep _ _ _ Hr), (split_no_sep _ _ Hb).
  reflexivity.
Qed.

Lemma append_assoc (a b c : string) : (a +:+ b) +:+ c = a +:+ (b +:+ c).
Proof.
  induction a as [|x a IH]; [reflexivity|].
  change (String x ((a +:+ b) +:+ c) = String x (a +:+ (b +:+ c))).
  by rewrite IH.
Qed.

(** ** The opaque reference: [getScmUriParts] *)

(** The reference that [_parseUrl] resolves to has the serialized form
    [hostname:repoId:branch], with [owner/uuid] as its [repoId]. *)
Lemma parseUrl_template h o u b :
  (h +:+ ":" +:+ o) +:+ ("/" +:+ u +:+ ":" +:+ b)
  = composeScmUri h (o +:+ "/" +:+ u) b.
Proof.
  unfold composeScmUri. by rewrite !append_assoc.
Qed.

(** C4, amended: [getScmUriParts] never fails on a string.  It returns
    the first three colon-delimited parts; the hostname is always
    there, a reference with fewer than three parts leaves the missing
    fields [undefined], and parts beyond the third are dropped. *)
Theorem getScmUriParts_never_fails (scmUri : string) :
  exists scm,
    getScmUriParts scmUri = Return scm /\
    is_Some (hostname scm) /\
    hostname scm = split colon scmUri !! 0%nat /\
    repoId scm = split colon scmUri !! 1%nat /\
    branch scm = split colon scmUri !! 2%nat /\
    ((length (split colon scmUri) < 3)%nat -> branch scm = None) /\
    ((length (split colon scmUri) < 2)%nat -> repoId scm = None).
Proof.
  eexists. split; [reflexivity|]. simpl.
  pose proof (split_nonempty colon scmUri) as Hne.
  destruct (split colon scmUri) as [|a [|b [|c rest]]] eqn:E; simpl;
    repeat split; eauto; try congruence; intros; simpl in *; lia.
Qed.

(** C5: decoding the composed reference [hostname:repositoryId:branch]
    gives back the three parts, for non-empty parts without a colon. *)
Theorem getScmUriParts_compose (h r b : string) :
  h <> "" -> r <> "" -> b <> "" ->
  no_sep colon h = true -> no_sep colon r = true -> no_sep colon b = true ->
  getScmUriParts (composeScmUri h r b)
  = Return {| hostname := Some h; repoId := Some r; branch := Some b |}.
Proof.
  intros _ _ _ Hh Hr Hb. unfold getScmUriParts.
  by rewrite (split_compose h r b Hh Hr Hb).
Qed.

(** ** Webhook normalization: [_parseHook] *)

(** On a chain without the segment [push], [hoek.reach] returns, and
    returns the walk along own properties. *)
Lemma hoek_reach_path_no_push chain ref path :
  no_push path = true ->
  hoek_reach_path chain ref path = Return (reach_path ref path).
Proof.
  revert ref. induction path as [|key rest IH]; intros ref H; simpl;
    [reflexivity|].
  simpl in H. apply andb_prop in H as [Hkey Hrest].
  apply negb_true_iff in Hkey.
  destruct ref; try reflexivity.
  - by rewrite Hkey.
  - destruct (field key fields); [by apply IH | reflexivity].
Qed.

Lemma hoek_reach_no_push obj chain :
  no_push (split dot chain) = true ->
  hoek_reach obj chain = Return (reach obj chain).
Proof. apply hoek_reach_path_no_push. Qed.

(** Whatever the walk along own properties finds, [hoek.reach] returns. *)
Lemma hoek_reach_path_found chain ref path v :
  reach_path ref path = v -> v <> VUndefined ->
  hoek_reach_path chain ref path = Return v.
Proof.
  revert ref. induction path as [|key rest IH]; intros ref <- Hv; simpl in *;
    [reflexivity|].
  destruct ref; try congruence.
  destruct (field key fields); [by apply IH | congruence].
Qed.

Lemma hoek_reach_found obj chain v :
  reach obj chain = v -> v <> VUndefined -> hoek_reach obj chain = Return v.
Proof. apply hoek_reach_path_found. Qed.

(** On an array, [push.changes] reaches [Array.prototype.push] and fails
    the assertion on [changes]. *)
Lemma hoek_reach_push_changes payload :
  hoek_reach payload "push.changes" =
    match payload with
    | VArr _ => Throw (InvalidSegment "changes" "push.changes")
    | _ => Return (reach payload "push.changes")
    end.
Proof.
  destruct payload; try reflexivity.
  unfold hoek_reach, reach.
  change (split dot "push.changes") with ["push"; "changes"].
  cbn [hoek_reach_path reach_path].
  destruct (field "push" fields) as [v|]; [|reflexivity].
  by apply (hoek_reach_path_no_push "push.changes" v ["changes"]).
Qed.

(** The outcome for a push, as one expression. *)
Lemma parseHook_repo_push headers payload :
  headers !! "x-event-key" = Some "repo:push" ->
  _parseHook headers payload =
    (changes ← hoek_reach payload "push.changes";
     link ← url_parse (reach payload "repository.links.html.href");
     change ← index0 changes;
     change' ← index0 changes;
     Return (Promise_resolve (Some (
       <["sha" := reach change' "new.target.hash"]>
       (<["branch" := reach change "new.name"]>
       (<["checkoutUrl" :=
            hook_checkoutUrl link (reach payload "repository.owner.username")]>
       (<["username" := reach payload "actor.username"]>
       (<["action" := VStr "push"]>
       (<["type" := VStr "repo"]>
       (<["hookId" := of_opt (headers !! "x-request-uuid")]> ∅)))))))))).
Proof.
  intros Hkey. unfold _parseHook. rewrite Hkey.
  change (split colon "repo:push") with ["repo"; "push"]. simpl.
  rewrite (hoek_reach_no_push payload "repository.owner.username"),
          (hoek_reach_no_push payload "repository.links.html.href"),
          (hoek_reach_no_push payload "actor.username") by reflexivity.
  simpl.
  destruct (hoek_reach payload "push.changes") as [changes|e]; simpl;
    [|reflexivity].
  destruct (url_parse _) as [link|e]; simpl; [|reflexivity].
  destruct (index0 changes) as [change|e]; simpl; [|reflexivity].
  by rewrite (hoek_reach_no_push change "new.name"),
             (hoek_reach_no_push change "new.target.hash").
Qed.

(** C1, amended: a push webhook whose change list is not empty reports
    the branch name and the commit of the FIRST entry of the list
    ([changes[0]]), with type [repo] and action [push]. *)
Theorem parseHook_push_reports_first_change headers payload change rest href :
  headers !! "x-event-key" = Some "repo:push" ->
  reach payload "push.changes" = VArr (change :: rest) ->
  reach payload "repository.links.html.href" = VStr href ->
  reports_push_of (_parseHook headers payload) change.
Proof.
  intros Hkey Hchanges Hhref.
  rewrite (parseHook_repo_push _ _ Hkey),
          (hoek_reach_found _ _ _ Hchanges), Hhref by discriminate.
  simpl.
  eexists. split; [reflexivity|].
  repeat split; by simplify_map_eq.
Qed.

(** C10, amended: a push webhook with an empty change list and the
    repository HTML link still resolves to a repo/push event; its branch
    and sha are [undefined]. *)
Theorem parseHook_push_empty_changes headers payload href :
  headers !! "x-event-key" = Some "repo:push" ->
  reach payload "push.changes" = VArr [] ->
  reach payload "repository.links.html.href" = VStr href ->
  exists parsed : gmap string value,
    _parseHook headers payload = Return (Fulfilled (Some parsed)) /\
    parsed !! "type" = Some (VStr "repo") /\
    parsed !! "action" = Some (VStr "push") /\
    parsed !! "branch" = Some VUndefined /\
    parsed !! "sha" = Some VUndefined.
Proof.
  intros Hkey Hchanges Hhref.
  rewrite (parseHook_repo_push _ _ Hkey),
          (hoek_reach_found _ _ _ Hchanges), Hhref by discriminate.
  simpl.
  eexists. split; [reflexivity|].
  repeat split; by simplify_map_eq.
Qed.

(** The outcome for a listed [pullrequest] action, as one expression. *)
Lemma parseHook_pullrequest headers payload actionHeader action :
  no_sep colon actionHeader = true ->
  headers !! "x-event-key" = Some ("pullrequest:" +:+ actionHeader) ->
  pr_action actionHeader = Some action ->
  _parseHook headers payload =
    (link ← url_parse (reach payload "repository.links.html.href");
     Return (Promise_resolve (Some (
       <["prRef" := reach payload "pullrequest.source.branch.name"]>
       (<["prNum" := reach payload "pullrequest.id"]>
       (<["sha" := reach payload "pullrequest.source.commit.hash"]>
       (<["branch" := reach payload "pullrequest.destination.branch.name"]>
       (<["checkoutUrl" :=
            hook_checkoutUrl link (reach payload "repository.owner.username")]>
       (<["username" := reach payload "actor.username"]>
       (<["type" := VStr "pr"]>
       (<["action" := VStr action]>
       (<["hookId" := of_opt (headers !! "x-request-uuid")]> ∅)))))))))))).
Proof.
  intros Hsep Hkey Hact. unfold _parseHook. rewrite Hkey.
  change ("pullrequest:" +:+ actionHeader)
    with ("pullrequest" +:+ String colon actionHeader).
  rewrite split_app_sep by reflexivity.
  rewrite (split_no_sep _ _ Hsep).
  rewrite (hoek_reach_no_push payload "repository.owner.username"),
          (hoek_reach_no_push payload "repository.links.html.href"),
          (hoek_reach_no_push payload "actor.username"),
          (hoek_reach_no_push payload "pullrequest.destination.branch.name"),
          (hoek_reach_no_push payload "pullrequest.source.commit.hash"),
          (hoek_reach_no_push payload "pullrequest.id"),
          (hoek_reach_no_push payload "pullrequest.source.branch.name")
    by reflexivity.
  simpl. unfold pr_action in Hact.
  destruct (String.eqb actionHeader "created");
    [|destruct (String.eqb actionHeader "updated");
      [|destruct (String.eqb actionHeader "fullfilled");
        [|destruct (String.eqb actionHeader "rejected"); [|discriminate]]]];
    simpl; injection Hact as <-;
    (destruct (url_parse _); reflexivity).
Qed.

(** Every [pullrequest] action that the table does not list resolves to
    [null] without reading the payload. *)
Lemma parseHook_pullrequest_unlisted headers payload actionHeader :
  no_sep colon actionHeader = true ->
  headers !! "x-event-key" = Some ("pullrequest:" +:+ actionHeader) ->
  pr_action actionHeader = None ->
  _parseHook headers payload = Return (Fulfilled None).
Proof.
  intros Hsep Hkey Hact. unfold _parseHook. rewrite Hkey.
  change ("pullrequest:" +:+ actionHeader)
    with ("pullrequest" +:+ String colon actionHeader).
  rewrite split_app_sep by reflexivity.
  rewrite (split_no_sep _ _ Hsep).
  rewrite (hoek_reach_no_push payload "repository.owner.username")
    by reflexivity.
  simpl. unfold pr_action in Hact.
  destruct (String.eqb actionHeader "created"); [discriminate|].
  destruct (String.eqb actionHeader "updated"); [discriminate|].
  destruct (String.eqb actionHeader "fullfilled"); [discriminate|].
  destruct (String.eqb actionHeader "rejected"); [discriminate|].
  reflexivity.
Qed.

(** A listed action resolves to a [pr] event with the mapped action. *)
Lemma parseHook_pullrequest_listed headers payload actionHeader action href :
  no_sep colon actionHeader = true ->
  headers !! "x-event-key" = Some ("pullrequest:" +:+ actionHeader) ->
  pr_action actionHeader = Some action ->
  reach payload "repository.links.html.href" = VStr href ->
  exists parsed : gmap string value,
    _parseHook headers payload = Return (Fulfilled (Some parsed)) /\
    parsed !! "type" = Some (VStr "pr") /\
    parsed !! "action" = Some (VStr action).
Proof.
  intros Hsep Hkey Hact Hhref.
  rewrite (parseHook_pullrequest _ _ _ _ Hsep Hkey Hact), Hhref. simpl.
  eexists. split; [reflexivity|]. split; by simplify_map_eq.
Qed.

(** C2: the action [fulfilled], which the claim maps to [closed], is not
    in the table of the code (which lists [fullfilled]): the webhook is
    resolved to [null]. *)
Theorem parseHook_pullrequest_fulfilled_ignored headers payload :
  headers !! "x-event-key" = Some "pullrequest:fulfilled" ->
  _parseHook headers payload = Return (Fulfilled None).
Proof.
  intros Hkey.
  by apply (parseHook_pullrequest_unlisted headers payload "fulfilled").
Qed.

(** ** Status translation: [_updateCommitStatus] *)

(** C7: the request of [_updateCommitStatus] carries the state that the
    fixed table gives for the build status, and the description
    [Screwdriver/<jobName>] for a supplied (non-empty) job name,
    [Screwdriver] without one. *)
Theorem updateCommitStatus_state_and_description
    scmUri sha buildStatus token targetUrl jobName request :
  _updateCommitStatus_options scmUri sha buildStatus token targetUrl jobName
  = Return request ->
  (exists cb,
      _updateCommitStatus scmUri sha buildStatus token targetUrl jobName
      = Return (then_ (runCommand request) cb)) /\
  method request = "POST" /\
  prop (body request) "key" = VStr sha /\
  (forall state, (buildStatus, state) ∈ status_table ->
                 prop (body request) "state" = VStr state) /\
  (forall j, jobName = Some j -> j <> "" ->
             prop (body request) "description" = VStr ("Screwdriver/" +:+ j)) /\
  (jobName = None -> prop (body request) "description" = VStr "Screwdriver").
Proof.
  intros Hopt. split.
  { unfold _updateCommitStatus. rewrite Hopt. eexists. reflexivity. }
  unfold _updateCommitStatus_options in Hopt. simpl in Hopt.
  destruct (decodeURIComponent token) as [decoded|e]; simpl in Hopt;
    [|discriminate].
  injection Hopt as <-. simpl.
  split; [reflexivity|]. split; [reflexivity|]. split; [|split].
  - intros state Hin. unfold status_table in Hin.
    repeat (apply elem_of_cons in Hin as [[= -> ->]|Hin]; [reflexivity|]).
    by apply elem_of_nil in Hin.
  - intros j -> Hj. destruct j; [congruence | reflexivity].
  - intros ->. reflexivity.
Qed.

(** ** The read lookups *)

Lemma expect_200_non_200 response :
  statusCode response <> 200 ->
  expect_200 response
  = Throw (StatusCodeError (statusCode response) (res_body response)).
Proof.
  intros Hne. unfold expect_200.
  destruct (statusCode response =? 200) eqn:E; [|reflexivity].
  apply Z.eqb_eq in E. contradiction.
Qed.

Lemma expect_200_ok response :
  statusCode response = 200 -> expect_200 response = Return tt.
Proof. intros H. unfold expect_200. by rewrite H. Qed.

Ltac by_status Hrun Hst :=
  unfold then_; rewrite Hrun; simpl;
  first [rewrite (expect_200_non_200 _ Hst) | rewrite (expect_200_ok _ Hst)];
  reflexivity.

Lemma getCommitSha_reads_through scmUri token :
  reads_through (_getCommitSha scmUri token)
    (fun body => target ← get body "target"; get target "hash").
Proof.
  unfold reads_through, _getCommitSha. simpl.
  eexists (GET _ token), _. split; [reflexivity|]. split; [reflexivity|].
  intros w response w' Hrun. split; intros Hst; by_status Hrun Hst.
Qed.

Lemma getFile_reads_through scmUri path token ref :
  reads_through (_getFile scmUri path token ref)
    (fun body => get body "data").
Proof.
  unfold reads_through, _getFile. simpl.
  eexists (GET _ token), _. split; [reflexivity|]. split; [reflexivity|].
  intros w response w' Hrun. split; intros Hst; by_status Hrun Hst.
Qed.

Lemma decorateAuthor_reads_through username token :
  reads_through (_decorateAuthor username token) author_of.
Proof.
  unfold reads_through, _decorateAuthor.
  eexists (GET _ token), _. split; [reflexivity|]. split; [reflexivity|].
  intros w response w' Hrun. split; intros Hst; by_status Hrun Hst.
Qed.

Lemma decorateCommit_rejects_non_200 sha scmUri token :
  rejects_non_200 (_decorateCommit sha scmUri token).
Proof.
  unfold rejects_non_200, _decorateCommit. simpl.
  eexists (GET _ token), _. split; [reflexivity|]. split; [reflexivity|].
  intros w response w' Hrun Hne.
  unfold then_async. rewrite Hrun.
  by rewrite (expect_200_non_200 _ Hne).
Qed.

(** C8, amended: [getCommitSha], [getFile] and [decorateCommit] (and
    the author lookup inside it) are rejected with the status error (the
    spec's UpstreamError, carrying status and body) whenever the
    response is not exactly a 200, a 404 and the other 2xx included; on
    a 200 the first two settle as the read of the body. *)
Theorem read_lookups_reject_non_200 sha scmUri path token ref username :
  reads_through (_getCommitSha scmUri token)
    (fun body => target ← get body "target"; get target "hash") /\
  reads_through (_getFile scmUri path token ref)
    (fun body => get body "data") /\
  rejects_non_200 (_decorateCommit sha scmUri token) /\
  reads_through (_decorateAuthor username token) author_of.
Proof.
  split; [apply getCommitSha_reads_through|].
  split; [apply getFile_reads_through|].
  split; [apply decorateCommit_rejects_non_200|].
  apply decorateAuthor_reads_through.
Qed.

(** ** [Promise.all] *)

Lemma first_rejection_None {A} (ps : list (promise A)) :
  first_rejection ps = None -> ps = Fulfilled <$> fulfilled_values ps.
Proof.
  induction ps as [|[a|e] ps IH]; simpl; intros H;
    [reflexivity | | discriminate].
  f_equal. by apply IH.
Qed.

Lemma first_rejection_Some {A} (ps : list (promise A)) e :
  first_rejection ps = Some e -> Rejected e ∈ ps.
Proof.
  induction ps as [|[a|e'] ps IH]; simpl; intros H.
  - discriminate.
  - apply elem_of_cons. right. by apply IH.
  - injection H as ->. apply elem_of_cons. by left.
Qed.

Lemma first_rejection_elem {A} (ps : list (promise A)) e :
  Rejected e ∈ ps -> is_Some (first_rejection ps).
Proof.
  induction ps as [|[a|e'] ps IH]; simpl; intros H.
  - by apply elem_of_nil in H.
  - apply elem_of_cons in H as [H|H]; [discriminate | by apply IH].
  - by eexists.
Qed.

Lemma first_rejection_app_None {A} (l1 l2 : list (promise A)) :
  first_rejection (l1 ++ l2) = None -> first_rejection l2 = None.
Proof.
  induction l1 as [|[a|e] l1 IH]; simpl; intros H;
    [assumption | by apply IH | discriminate].
Qed.

Lemma Promise_all_fulfilled {A} order (ps : list (promise A)) l :
  Promise_all order ps = Fulfilled l -> ps = Fulfilled <$> l.
Proof.
  unfold Promise_all.
  destruct (first_rejection _) eqn:E; [discriminate|].
  intros [= <-]. apply first_rejection_None.
  by apply first_rejection_app_None in E.
Qed.

Lemma Promise_all_rejected {A} order (ps : list (promise A)) e :
  Promise_all order ps = Rejected e -> Rejected e ∈ ps.
Proof.
  unfold Promise_all.
  destruct (first_rejection _) eqn:E; [|discriminate].
  intros [= <-]. apply first_rejection_Some in E.
  apply elem_of_app in E as [E|E]; [|assumption].
  apply list_elem_of_omap in E as (i & _ & Hi).
  by apply list_elem_of_lookup_2 in Hi.
Qed.

Lemma Promise_all_fails {A} order (ps : list (promise A)) e0 :
  Rejected e0 ∈ ps -> exists e, Promise_all order ps = Rejected e.
Proof.
  intros Hin. unfold Promise_all.
  destruct (first_rejection _) eqn:E; [by eexists|].
  apply first_rejection_app_None in E.
  apply first_rejection_elem in Hin as [e He]. congruence.
Qed.

(** ** Permission aggregation: [_getPermissions] *)

Lemma get_readable v key : readable v = true -> get v key = Return (prop v key).
Proof. by destruct v. Qed.

(** On a list whose entries can be read, the scope test is the
    membership test of the uuid. *)
Lemma some_uuid_existsb uuid items :
  forallb readable items = true ->
  some_uuid uuid items
  = Return (existsb (fun r => strict_eq (prop r "uuid") uuid) items).
Proof.
  induction items as [|r items IH]; simpl; [reflexivity|].
  intros H. apply andb_prop in H as [Hr Hitems].
  rewrite (get_readable _ _ Hr). simpl.
  destruct (strict_eq (prop r "uuid") uuid); simpl; [reflexivity | by apply IH].
Qed.

Lemma getPerm_then_non_200 uuid response :
  statusCode response <> 200 ->
  getPerm_then uuid response
  = Throw (StatusCodeError (statusCode response) (res_body response)).
Proof.
  intros Hne. unfold getPerm_then. by rewrite (expect_200_non_200 _ Hne).
Qed.

Lemma getPerm_then_200 uuid response items :
  statusCode response = 200 ->
  get (res_body response) "values" = Return (VArr items) ->
  forallb readable items = true ->
  getPerm_then uuid response
  = Return (existsb (fun r => strict_eq (prop r "uuid") uuid) items).
Proof.
  intros H200 Hvalues Hitems. unfold getPerm_then.
  rewrite (expect_200_ok _ H200). simpl. rewrite Hvalues. simpl.
  by apply some_uuid_existsb.
Qed.

(** [_getPermissions] decodes the reference, sends the three scope
    queries for the owner in its middle field, and joins their answers. *)
Lemma getPermissions_run scmUri token p w :
  _getPermissions scmUri token = Return p ->
  exists rid : string,
    split colon scmUri !! 1%nat = Some rid /\
    p w =
      (settle_then
         (Promise_all
            (settle_order
               (snd (scope_queries (of_opt (split slash rid !! 0%nat)) token w)))
            ((fun r => settle_then r
                         (getPerm_then (of_opt (split slash rid !! 1%nat))))
               <$> fst (scope_queries (of_opt (split slash rid !! 0%nat))
                                      token w)))
         permissions_of,
       snd (scope_queries (of_opt (split slash rid !! 0%nat)) token w)).
Proof.
  unfold _getPermissions, getScmUriParts. simpl.
  destruct (split colon scmUri !! 1%nat) as [rid|]; simpl; [|discriminate].
  intros [= <-]. exists rid. split; [reflexivity|].
  unfold scope_queries, then_.
  destruct (runCommand _ w) as [ra w1]; simpl.
  destruct (runCommand _ w1) as [rb w2]; simpl.
  destruct (runCommand _ w2) as [rc w3]; simpl.
  reflexivity.
Qed.

(** The scope queries of the code are the three requests spelt out. *)
Lemma scope_queries_requests owner token w :
  scope_queries owner token w = send_all (scope_requests owner token) w.
Proof.
  unfold scope_queries, scope_requests, getPerm_url. simpl.
  change (API_URL_V2 +:+ "/repositories/" +:+ ToString owner)
    with ("https://api.bitbucket.org/2.0/repositories/" +:+ ToString owner).
  rewrite !append_assoc.
  destruct (runCommand _ w) as [ra w1]; simpl.
  destruct (runCommand _ w1) as [rb w2]; simpl.
  destruct (runCommand _ w2) as [rc w3]; reflexivity.
Qed.

(** C6, amended: [_getPermissions] sends three GET requests for the
    owner of the reference, [repositories/<owner>?role=admin],
    [repositories/<owner>?role=contributor] and [repositories/<owner>];
    each answer is the test that the repository uuid is in the list
    returned.  When any of the three responses is not a 2xx, the
    aggregate is rejected, with the error of one of the rejected queries,
    and no permission object is returned; every permission object that
    is returned has its three fields.  The rejection is a status error
    (the spec's UpstreamError) when the transport answers all three
    queries and the 200 bodies are readable. *)
Theorem getPermissions_fails_as_a_whole scmUri token p w :
  _getPermissions scmUri token = Return p ->
  all_or_nothing scmUri token p w.
Proof.
  intros Hp. unfold all_or_nothing.
  destruct (getPermissions_run scmUri token p w Hp) as (rid & Hrid & Hrun).
  exists rid. split; [assumption|]. cbv zeta.
  rewrite <- (scope_queries_requests (of_opt (split slash rid !! 0%nat)) token w).
  set (owner := of_opt (split slash rid !! 0%nat)) in *.
  set (uuid := of_opt (split slash rid !! 1%nat)) in *.
  set (settled := fst (scope_queries owner token w)) in *.
  set (answers := (fun r => settle_then r (getPerm_then uuid)) <$> settled) in *.
  assert (Hrej : forall e, fst (p w) = Rejected e -> Rejected e ∈ answers).
  { intros e He. rewrite Hrun in He. simpl in He.
    destruct (Promise_all _ answers) as [l|e'] eqn:E; simpl in He.
    - discriminate.
    - injection He as <-. by apply Promise_all_rejected in E. }
  split; [by rewrite Hrun|].
  split; [apply getPerm_then_200|].
  split; [|split].
  - intros perms Hperms. rewrite Hrun in Hperms. simpl in Hperms.
    destruct (Promise_all _ answers) as [l|e'] eqn:E; simpl in Hperms;
      [|discriminate].
    injection Hperms as <-. apply Promise_all_fulfilled in E.
    assert (Hlen : length l = 3%nat).
    { apply (f_equal length) in E. unfold answers in E.
      rewrite !length_fmap in E. by rewrite <- E. }
    destruct l as [|x [|y [|z [|? ?]]]]; simpl in Hlen; try lia.
    exists x, y, z. split; [exact E | reflexivity].
  - intros response Hin Hst.
    assert (Hne : statusCode response <> 200) by lia.
    assert (Hans : Rejected (StatusCodeError (statusCode response)
                                             (res_body response)) ∈ answers).
    { unfold answers. apply list_elem_of_fmap.
      exists (Fulfilled response). split; [|assumption].
      simpl. by rewrite (getPerm_then_non_200 _ _ Hne). }
    split; [assumption|].
    destruct (Promise_all_fails (settle_order (snd (scope_queries owner token w)))
                answers _ Hans) as [e He].
    exists e. assert (Hfst : fst (p w) = Rejected e).
    { rewrite Hrun.
      change (settle_then
                (Promise_all
                   (settle_order (snd (scope_queries owner token w))) answers)
                permissions_of = Rejected e).
      by rewrite He. }
    split; [assumption | by apply Hrej].
  - intros Hall e He. apply Hrej in He.
    unfold answers in He. apply list_elem_of_fmap in He as (r & Hr & Hin).
    destruct (Hall r Hin) as (response & -> & Hok). simpl in Hr.
    destruct (Z.eq_dec (statusCode response) 200) as [H200|Hne].
    + destruct (Hok H200) as [ok Hk]. rewrite Hk in Hr. discriminate.
    + rewrite (getPerm_then_non_200 _ _ Hne) in Hr. by injection Hr as ->.
Qed.

(** ** Resolving a checkout URL: [_parseUrl] *)

(** C3, amended: the middle field of the reference that [_parseUrl]
    resolves to is [owner/uuid]: the owner as written in the checkout
    URL, a slash, and the repository uuid that the provider returned.
    The repo slug is no part of the reference, the owner slug is. *)
Theorem parseUrl_reference checkoutUrl token p w ref w' :
  _parseUrl checkoutUrl token = Return p ->
  p w = (Fulfilled ref, w') ->
  resolved_reference checkoutUrl w ref w'.
Proof.
  unfold resolved_reference, _parseUrl, getRepoInfo.
  destruct (CHECKOUT_URL_exec checkoutUrl) as [matched|] eqn:Hexec;
    [|discriminate].
  destruct (group matched MATCH_COMPONENT_BRANCH) as [suffix|] eqn:Hsuffix;
    [|discriminate].
  simpl. intros [= <-]. unfold then_.
  destruct (runCommand _ w) as [[response|e] w1] eqn:Hrun; simpl; [|discriminate].
  unfold _parseUrl_then.
  destruct (statusCode response =? 404) eqn:E404; [discriminate|].
  destruct (statusCode response =? 200) eqn:E200; simpl; [|discriminate].
  destruct (get (res_body response) "repository") as [repository|e] eqn:Hrepo;
    simpl; [|discriminate].
  destruct (get repository "uuid") as [uuid|e] eqn:Huuid; simpl; [|discriminate].
  intros [= <- <-].
  eexists matched, suffix, _, response, repository, uuid.
  split; [reflexivity|]. split; [exact Hsuffix|]. split; [exact Hrun|].
  split; [by apply Z.eqb_eq|]. split; [assumption|]. split; [assumption|].
  cbv zeta. split; [apply parseUrl_template|].
  intros Hh Hr Hb. rewrite parseUrl_template.
  unfold getScmUriParts. by rewrite (split_compose _ _ _ Hh Hr Hb).
Qed.

(** The repo slug of the checkout URL does not enter the reference: two
    resolutions that agree on hostname, owner and branch compose the same
    reference from the same response. *)
Lemma parseUrl_then_ignores_repo checkoutUrl1 checkoutUrl2 info1 info2 response :
  RepoInfo.hostname info1 = RepoInfo.hostname info2 ->
  RepoInfo.username info1 = RepoInfo.username info2 ->
  RepoInfo.branch info1 = RepoInfo.branch info2 ->
  statusCode response = 200 ->
  _parseUrl_then checkoutUrl1 info1 response
  = _parseUrl_then checkoutUrl2 info2 response.
Proof.
  intros Hh Hu Hb H200. unfold _parseUrl_then.
  rewrite H200, Hh, Hu, Hb. reflexivity.
Qed.

(** ** Further properties of [_parseHook] *)

Lemma strict_eq_str a b : strict_eq (VStr a) (VStr b) = String.eqb a b.
Proof. reflexivity. Qed.

Lemma strict_eq_of_opt_ne (o : option string) (s : string) :
  o <> Some s -> strict_eq (of_opt o) (VStr s) = false.
Proof.
  destruct o as [t|]; simpl; [|reflexivity].
  intros Hne. apply String.eqb_neq. congruence.
Qed.

(** X1: a [repo] event whose action is not [push] (or is missing) is
    resolved to [null], whatever the payload is. *)
Theorem parseHook_repo_other_action_ignored headers payload key :
  headers !! "x-event-key" = Some key ->
  split colon key !! 0%nat = Some "repo" ->
  split colon key !! 1%nat <> Some "push" ->
  _parseHook headers payload = Return (Fulfilled None).
Proof.
  intros Hkey Htype Haction. unfold _parseHook.
  rewrite Hkey, (hoek_reach_no_push payload "repository.owner.username")
    by reflexivity.
  simpl. rewrite Htype. simpl.
  by rewrite (strict_eq_of_opt_ne _ _ Haction).
Qed.

(** X2: an event of any category other than [repo] and [pullrequest] is
    resolved to [null], whatever the payload is. *)
Theorem parseHook_other_category_ignored headers payload key :
  headers !! "x-event-key" = Some key ->
  split colon key !! 0%nat <> Some "repo" ->
  split colon key !! 0%nat <> Some "pullrequest" ->
  _parseHook headers payload = Return (Fulfilled None).
Proof.
  intros Hkey Hrepo Hpr. unfold _parseHook.
  rewrite Hkey, (hoek_reach_no_push payload "repository.owner.username")
    by reflexivity.
  simpl.
  by rewrite (strict_eq_of_opt_ne _ _ Hrepo), (strict_eq_of_opt_ne _ _ Hpr).
Qed.

(** X3: webhook normalization throws, instead of resolving to an event
    or to [null], when the event-key header is missing, and when an
    actionable event (a push, or a listed pull request action) comes
    with a payload whose repository HTML link is not a string.  The
    error is a [TypeError], except for a push whose payload is an array:
    there [hoek.reach] fails its assertion on [push.changes] first. *)
Theorem parseHook_throws headers payload :
  headers !! "x-event-key" = None \/
  ((headers !! "x-event-key" = Some "repo:push" \/
    exists actionHeader action,
      no_sep colon actionHeader = true /\
      headers !! "x-event-key" = Some ("pullrequest:" +:+ actionHeader) /\
      pr_action actionHeader = Some action) /\
   forall href, reach payload "repository.links.html.href" <> VStr href) ->
  _parseHook headers payload =
    Throw (if bool_decide (headers !! "x-event-key" = Some "repo:push")
              && is_array payload
           then InvalidSegment "changes" "push.changes"
           else TypeError).
Proof.
  intros [Hkey|[Hevent Hlink]].
  - unfold _parseHook. rewrite Hkey. reflexivity.
  - assert (Hparse :
      url_parse (reach payload "repository.links.html.href") = Throw TypeError).
    { destruct (reach payload "repository.links.html.href") eqn:E;
        try reflexivity. by destruct (Hlink s). }
    destruct Hevent as [Hkey|(actionHeader & action & Hsep & Hkey & Hact)].
    + rewrite (parseHook_repo_push _ _ Hkey), hoek_reach_push_changes, Hkey.
      rewrite bool_decide_eq_true_2 by reflexivity.
      destruct payload; simpl; by rewrite ?Hparse.
    + rewrite (parseHook_pullrequest _ _ _ _ Hsep Hkey Hact), Hparse, Hkey.
      rewrite bool_decide_eq_false_2; [reflexivity|].
      by intros [=].
Qed.

(** X4: a listed pull request action resolves to a [pr] event whose
    branch is the destination branch, whose sha is the source commit,
    whose [prNum] is the pull request id and whose [prRef] is the source
    branch. *)
Theorem parseHook_pullrequest_fields headers payload actionHeader action href :
  no_sep colon actionHeader = true ->
  headers !! "x-event-key" = Some ("pullrequest:" +:+ actionHeader) ->
  pr_action actionHeader = Some action ->
  reach payload "repository.links.html.href" = VStr href ->
  reports_pr_of (_parseHook headers payload) payload action.
Proof.
  intros Hsep Hkey Hact Hhref.
  rewrite (parseHook_pullrequest _ _ _ _ Hsep Hkey Hact), Hhref. simpl.
  eexists. split; [reflexivity|].
  repeat split; by simplify_map_eq.
Qed.

(** X5: the event key is read through its first two colon-delimited
    parts only: two keys that agree on them (as [repo:push] and
    [repo:push:extra] do) are normalized alike. *)
Theorem parseHook_reads_two_parts headers1 headers2 key1 key2 payload :
  headers1 !! "x-event-key" = Some key1 ->
  headers2 !! "x-event-key" = Some key2 ->
  split colon key1 !! 0%nat = split colon key2 !! 0%nat ->
  split colon key1 !! 1%nat = split colon key2 !! 1%nat ->
  headers1 !! "x-request-uuid" = headers2 !! "x-request-uuid" ->
  _parseHook headers1 payload = _parseHook headers2 payload.
Proof.
  intros Hkey1 Hkey2 H0 H1 Hid. unfold _parseHook.
  rewrite Hkey1, Hkey2. simpl. by rewrite H0, H1, Hid.
Qed.

(** X6: a push whose payload carries the repository link throws a
    [TypeError] when [push.changes] is [undefined] or [null], and
    resolves to a repo/push event for every other value of
    [push.changes]: a list, even an empty one, but also a number, a
    string or an object. *)
Theorem parseHook_push_without_changes headers payload href :
  headers !! "x-event-key" = Some "repo:push" ->
  reach payload "repository.links.html.href" = VStr href ->
  (reach payload "push.changes" = VUndefined \/
   reach payload "push.changes" = VNull ->
   _parseHook headers payload = Throw TypeError) /\
  (reach payload "push.changes" <> VUndefined ->
   reach payload "push.changes" <> VNull ->
   exists parsed : gmap string value,
     _parseHook headers payload = Return (Fulfilled (Some parsed)) /\
     parsed !! "type" = Some (VStr "repo") /\
     parsed !! "action" = Some (VStr "push")).
Proof.
  intros Hkey Hhref.
  assert (Hreach : hoek_reach payload "push.changes"
                   = Return (reach payload "push.changes")).
  { rewrite hoek_reach_push_changes. by destruct payload. }
  rewrite (parseHook_repo_push _ _ Hkey), Hreach, Hhref. simpl. split.
  - by intros [-> | ->].
  - intros Hu Hn.
    destruct (reach payload "push.changes") as [| |b|n|s|items|fields];
      try congruence; try destruct s; simpl;
      (eexists; split; [reflexivity|]; split; by simplify_map_eq).
Qed.

(** [hoek.reach] below a property that is [null] gives [undefined]. *)
Lemma reach_path_below_null fields key rest :
  field key fields = Some VNull -> rest <> [] ->
  reach_path (VObj fields) (key :: rest) = VUndefined.
Proof.
  intros Hfield Hrest. simpl. rewrite Hfield.
  by destruct rest.
Qed.

(** X7: a push whose payload carries the repository link and whose
    first change has a [null] [new] (the branch was deleted) still
    resolves to a repo/push event; its branch and sha are [undefined]. *)
Theorem parseHook_push_deleted_branch headers payload fields rest href :
  headers !! "x-event-key" = Some "repo:push" ->
  reach payload "push.changes" = VArr (VObj fields :: rest) ->
  field "new" fields = Some VNull ->
  reach payload "repository.links.html.href" = VStr href ->
  exists parsed : gmap string value,
    _parseHook headers payload = Return (Fulfilled (Some parsed)) /\
    parsed !! "type" = Some (VStr "repo") /\
    parsed !! "action" = Some (VStr "push") /\
    parsed !! "branch" = Some VUndefined /\
    parsed !! "sha" = Some VUndefined.
Proof.
  intros Hkey Hchanges Hnew Hhref.
  rewrite (parseHook_repo_push _ _ Hkey),
          (hoek_reach_found _ _ _ Hchanges), Hhref by discriminate.
  simpl.
  eexists. split; [reflexivity|].
  assert (Hname : reach (VObj fields) "new.name" = VUndefined)
    by (by apply reach_path_below_null).
  assert (Hhash : reach (VObj fields) "new.target.hash" = VUndefined)
    by (by apply reach_path_below_null).
  rewrite Hname, Hhash.
  repeat split; by simplify_map_eq.
Qed.

(** X8: every event that [_parseHook] resolves to carries the
    request-uuid header as its hook id, a checkout URL that is a string,
    and is either a repo push without pull request fields or a pull
    request with one of the actions opened, synchronized, closed. *)
Theorem parseHook_event_well_formed headers payload parsed :
  _parseHook headers payload = Return (Fulfilled (Some parsed)) ->
  well_formed_event headers parsed.
Proof using url_parse_string.
  unfold _parseHook.
  destruct (headers !! "x-event-key") as [key|]; [|discriminate].
  rewrite (hoek_reach_no_push payload "repository.owner.username"),
          (hoek_reach_no_push payload "repository.links.html.href"),
          (hoek_reach_no_push payload "actor.username"),
          (hoek_reach_no_push payload "pullrequest.destination.branch.name"),
          (hoek_reach_no_push payload "pullrequest.source.commit.hash"),
          (hoek_reach_no_push payload "pullrequest.id"),
          (hoek_reach_no_push payload "pullrequest.source.branch.name")
    by reflexivity.
  simpl.
  set (typeHeader := of_opt (split colon key !! 0%nat)).
  set (actionHeader := of_opt (split colon key !! 1%nat)).
  destruct (strict_eq typeHeader (VStr "repo")).
  - destruct (strict_eq actionHeader (VStr "push")); simpl; [|discriminate].
    destruct (hoek_reach payload "push.changes") as [changes|e]; simpl;
      [|discriminate].
    destruct (url_parse _) as [link|e]; simpl; [|discriminate].
    destruct (index0 changes) as [change|e]; simpl; [|discriminate].
    rewrite (hoek_reach_no_push change "new.name"),
            (hoek_reach_no_push change "new.target.hash") by reflexivity.
    simpl.
    intros [= <-]. unfold well_formed_event.
    split; [by simplify_map_eq|]. split; [eexists; by simplify_map_eq|].
    split; [by simplify_map_eq|]. split; [by simplify_map_eq|].
    split; [by simplify_map_eq|]. left. repeat split; by simplify_map_eq.
  - destruct (strict_eq typeHeader (VStr "pullrequest")); [|discriminate].
    destruct (strict_eq actionHeader (VStr "created"));
      [|destruct (strict_eq actionHeader (VStr "updated"));
        [|destruct (strict_eq actionHeader (VStr "fullfilled")
                    || strict_eq actionHeader (VStr "rejected"));
          [|discriminate]]];
      (destruct (url_parse _) as [link|e]; simpl; [|discriminate];
       intros [= <-]; unfold well_formed_event;
       split; [by simplify_map_eq|]; split; [eexists; by simplify_map_eq|];
       split; [by simplify_map_eq|]; split; [by simplify_map_eq|];
       split; [by simplify_map_eq|]; right;
       split; [by simplify_map_eq|];
       split; [eexists; split;
               [by simplify_map_eq
               |repeat first [apply elem_of_cons; left; reflexivity
                             |apply elem_of_cons; right]]|];
       split; by simplify_map_eq).
Qed.

(** ** Further properties of the opaque reference *)

(** X9: [getScmUriParts] keeps only the first colon-delimited part of
    what follows the second colon: a branch that holds a colon is
    decoded to its first part, so the round trip holds for it only up
    to that truncation. *)
Theorem getScmUriParts_truncates_branch (h r b : string) :
  no_sep colon h = true -> no_sep colon r = true ->
  getScmUriParts (composeScmUri h r b)
  = Return {| hostname := Some h; repoId := Some r;
              branch := split colon b !! 0%nat |}.
Proof.
  intros Hh Hr. unfold getScmUriParts, composeScmUri.
  change (":" +:+ r +:+ ":" +:+ b) with (String colon (r +:+ String colon b)).
  by rewrite (split_app_sep _ _ _ Hh), (split_app_sep _ _ _ Hr).
Qed.

(** ** Further properties of [_parseUrl] *)

(** X10: [_parseUrl] throws a [TypeError], before any request is sent,
    when the checkout URL does not match the grammar and when it matches
    without a branch suffix: no default branch is assumed. *)
Theorem parseUrl_throws_without_branch checkoutUrl token :
  CHECKOUT_URL_exec checkoutUrl = None \/
  (exists matched,
      CHECKOUT_URL_exec checkoutUrl = Some matched /\
      group matched MATCH_COMPONENT_BRANCH = None) ->
  _parseUrl checkoutUrl token = Throw TypeError.
Proof.
  unfold _parseUrl, getRepoInfo.
  intros [Hexec|(matched & Hexec & Hbranch)]; rewrite Hexec; [reflexivity|].
  by rewrite Hbranch.
Qed.

(** X11: when the branch lookup of [_parseUrl] is answered with a 404
    the resolution is rejected with the "Cannot find repository" error
    that names the checkout URL; any other status but 200 is rejected
    with the status error. *)
Theorem parseUrl_status_errors checkoutUrl token p :
  _parseUrl checkoutUrl token = Return p ->
  exists request,
    method request = "GET" /\
    bearer request = token /\
    forall w response w',
      runCommand request w = (Fulfilled response, w') ->
      (statusCode response = 404 ->
       p w = (Rejected (CannotFindRepository checkoutUrl), w')) /\
      (statusCode response <> 404 -> statusCode response <> 200 ->
       p w = (Rejected (StatusCodeError (statusCode response)
                                        (res_body response)), w')).
Proof.
  unfold _parseUrl. destruct (getRepoInfo checkoutUrl) as [repoInfo|e];
    simpl; [|discriminate].
  intros [= <-]. eexists (GET _ token).
  split; [reflexivity|]. split; [reflexivity|].
  intros w response w' Hrun. unfold then_. rewrite Hrun. simpl.
  unfold _parseUrl_then. split.
  - intros H404. by rewrite H404.
  - intros H404 H200.
    apply Z.eqb_neq in H404. apply Z.eqb_neq in H200.
    by rewrite H404, H200.
Qed.

(** ** Further properties of the lookups *)

(** X12: on a reference [h:r:b] the lookups address the repository by
    the middle field: [_getCommitSha] asks for the branch [b] of [r],
    [_decorateCommit] for the commit of [r], [_decorateUrl] for [r]. *)
Theorem lookups_address_repoId (h r b sha token : string) :
  no_sep colon h = true -> no_sep colon r = true -> no_sep colon b = true ->
  (exists cb,
      _getCommitSha (composeScmUri h r b) token
      = Return (then_ (runCommand
                         (GET (REPO_URL +:+ "/" +:+ r +:+ "/refs/branches/" +:+ b)
                              token)) cb)) /\
  (exists cb,
      _decorateCommit sha (composeScmUri h r b) token
      = Return (then_async (runCommand
                              (GET (REPO_URL +:+ "/" +:+ r +:+ "/commit/" +:+ sha)
                                   token)) cb)) /\
  (exists cb,
      _decorateUrl (composeScmUri h r b) token
      = Return (then_ (runCommand (GET (REPO_URL +:+ "/" +:+ r) token)) cb)).
Proof.
  intros Hh Hr Hb.
  unfold _getCommitSha, _decorateCommit, _decorateUrl, getScmUriParts.
  rewrite (split_compose _ _ _ Hh Hr Hb). simpl.
  repeat split; eexists; reflexivity.
Qed.

(** X13: a reference without any colon is not refused by
    [_getCommitSha]: its missing fields are spelt [undefined] in the URL
    of the request that is sent. *)
Theorem getCommitSha_of_one_part_reference scmUri token :
  no_sep colon scmUri = true ->
  exists cb,
    _getCommitSha scmUri token
    = Return (then_ (runCommand
                       (GET (REPO_URL +:+ "/undefined/refs/branches/undefined")
                            token)) cb).
Proof.
  intros Hsep. unfold _getCommitSha, getScmUriParts.
  rewrite (split_no_sep _ _ Hsep). simpl. eexists. reflexivity.
Qed.

(** X14: [_getFile] reads the file at [config.ref] when a non-empty ref
    is given, and at the branch of the reference when the ref is missing
    or empty. *)
Theorem getFile_ref_precedence (h r b path token : string) (ref : option string) :
  no_sep colon h = true -> no_sep colon r = true -> no_sep colon b = true ->
  (forall x, ref = Some x -> x <> "" ->
     exists cb,
       _getFile (composeScmUri h r b) path token ref
       = Return (then_ (runCommand
                          (GET (API_URL_V1 +:+ "/repositories/" +:+ r
                                  +:+ "/src/" +:+ x +:+ "/" +:+ path) token))
                       cb)) /\
  (ref = None \/ ref = Some "" ->
     exists cb,
       _getFile (composeScmUri h r b) path token ref
       = Return (then_ (runCommand
                          (GET (API_URL_V1 +:+ "/repositories/" +:+ r
                                  +:+ "/src/" +:+ b +:+ "/" +:+ path) token))
                       cb)).
Proof.
  intros Hh Hr Hb. unfold _getFile, getScmUriParts.
  rewrite (split_compose _ _ _ Hh Hr Hb). simpl. split.
  - intros x -> Hx. destruct x; [congruence|]. simpl. eexists. reflexivity.
  - intros [-> | ->]; simpl; eexists; reflexivity.
Qed.

Lemma get_Return v key x : get v key = Return x -> x = prop v key.
Proof. destruct v; simpl; intros H; by inversion H. Qed.



(** ** Further properties of [_updateCommitStatus] *)

(** [STATE_MAP] holds the five entries of the table and no other. *)
Lemma STATE_MAP_table buildStatus state :
  STATE_MAP !! buildStatus = Some state <-> (buildStatus, state) ∈ status_table.
Proof using Type.
  unfold STATE_MAP, status_table. split.
  - intros H.
    repeat (rewrite lookup_insert in H; case_decide;
            [injection H as <-; subst; set_solver|]).
    by rewrite lookup_empty in H.
  - intros H.
    repeat (apply elem_of_cons in H as [[= -> ->]|H]; [reflexivity|]).
    by apply elem_of_nil in H.
Qed.

(** X16: the status request is fulfilled with the response itself on a
    200 and on a 201, and rejected with the status error on any other
    status. *)
Theorem updateCommitStatus_accepts_200_201
    scmUri sha buildStatus token targetUrl jobName p :
  _updateCommitStatus scmUri sha buildStatus token targetUrl jobName = Return p ->
  exists request,
    _updateCommitStatus_options scmUri sha buildStatus token targetUrl jobName
    = Return request /\
    forall w response w',
      runCommand request w = (Fulfilled response, w') ->
      (statusCode response = 200 \/ statusCode response = 201 ->
       p w = (Fulfilled response, w')) /\
      (statusCode response <> 200 -> statusCode response <> 201 ->
       p w = (Rejected (StatusCodeError (statusCode response)
                                        (res_body response)), w')).
Proof.
  unfold _updateCommitStatus.
  destruct (_updateCommitStatus_options _ _ _ _ _ _) as [request|e];
    simpl; [|discriminate].
  intros [= <-]. exists request. split; [reflexivity|].
  intros w response w' Hrun. unfold then_. rewrite Hrun. simpl. split.
  - intros [-> | ->]; reflexivity.
  - intros H200 H201.
    apply Z.eqb_neq in H200. apply Z.eqb_neq in H201.
    by rewrite H200, H201.
Qed.

(** X17: a build status that is neither in the table nor a name that
    [STATE_MAP] inherits from [Object.prototype] is not refused: the
    request is still sent, with an [undefined] state. *)
Theorem updateCommitStatus_unknown_status
    scmUri sha buildStatus token targetUrl jobName request :
  _updateCommitStatus_options scmUri sha buildStatus token targetUrl jobName
  = Return request ->
  (forall state, (buildStatus, state) ∉ status_table) ->
  buildStatus ∉ Object_prototype_names ->
  prop (body request) "state" = VUndefined /\
  exists cb,
    _updateCommitStatus scmUri sha buildStatus token targetUrl jobName
    = Return (then_ (runCommand request) cb).
Proof.
  intros Hopt Hnot _. split.
  - unfold _updateCommitStatus_options in Hopt. simpl in Hopt.
    destruct (decodeURIComponent token) as [decoded|e]; simpl in Hopt;
      [|discriminate].
    injection Hopt as <-. simpl.
    destruct (STATE_MAP !! buildStatus) as [state|] eqn:E; [|reflexivity].
    apply STATE_MAP_table in E. by destruct (Hnot state).
  - unfold _updateCommitStatus. rewrite Hopt. eexists. reflexivity.
Qed.

(** X18: a token that [decodeURIComponent] refuses makes
    [_updateCommitStatus] throw that error before any request is built;
    otherwise the request carries the decoded token and goes to the
    build statuses of the commit under the middle field of the
    reference. *)
Theorem updateCommitStatus_token (h r b sha buildStatus token targetUrl : string)
    (jobName : option string) :
  no_sep colon h = true -> no_sep colon r = true -> no_sep colon b = true ->
  match decodeURIComponent token with
  | Throw e =>
      _updateCommitStatus (composeScmUri h r b) sha buildStatus token targetUrl
                          jobName = Throw e
  | Return decoded =>
      exists request,
        _updateCommitStatus_options (composeScmUri h r b) sha buildStatus token
                                    targetUrl jobName = Return request /\
        bearer request = decoded /\
        url request = REPO_URL +:+ "/" +:+ r +:+ "/commit/" +:+ sha
                        +:+ "/statuses/build"
  end.
Proof.
  intros Hh Hr Hb.
  unfold _updateCommitStatus, _updateCommitStatus_options, getScmUriParts.
  rewrite (split_compose _ _ _ Hh Hr Hb). simpl.
  destruct (decodeURIComponent token) as [decoded|e]; simpl; [|reflexivity].
  eexists. repeat split.
Qed.

(** ** Further properties of [_getPermissions] *)

(** X19: a reference without any colon has no middle field, and
    [_getPermissions] throws a [TypeError] on it before any query is
    sent. *)
Theorem getPermissions_throws_without_repoId scmUri token :
  no_sep colon scmUri = true ->
  _getPermissions scmUri token = Throw TypeError.
Proof.
  intros Hsep. unfold _getPermissions, getScmUriParts.
  by rewrite (split_no_sep _ _ Hsep).
Qed.

Lemma first_rejection_fulfilled {A} (l : list A) :
  first_rejection (Fulfilled <$> l) = None.
Proof. induction l as [|a l IH]; [reflexivity | exact IH]. Qed.

Lemma fulfilled_values_fulfilled {A} (l : list A) :
  fulfilled_values (Fulfilled <$> l) = l.
Proof.
  induction l as [|a l IH]; [reflexivity|].
  change (a :: fulfilled_values (Fulfilled <$> l) = a :: l). by rewrite IH.
Qed.

(** When every member is fulfilled, [Promise.all] is fulfilled with the
    values in the order of the members, whatever the order of
    settlement. *)
Lemma Promise_all_of_fulfilled {A} order (l : list A) :
  Promise_all order (Fulfilled <$> l) = Fulfilled l.
Proof.
  destruct (Promise_all order (Fulfilled <$> l)) as [l'|e] eqn:E.
  - unfold Promise_all in E.
    destruct (first_rejection _); [discriminate|].
    injection E as <-. by rewrite fulfilled_values_fulfilled.
  - apply Promise_all_rejected in E.
    apply list_elem_of_fmap in E as (a & Ha & _). discriminate.
Qed.

(** X20: when the three scope queries are answered with a 200 and a
    readable list, the permissions are the three membership tests of the
    uuid, admin, push and pull in this order, whatever the order of
    settlement. *)
Theorem getPermissions_membership scmUri token p w rid
    r_admin r_push r_pull admins pushers pullers :
  _getPermissions scmUri token = Return p ->
  split colon scmUri !! 1%nat = Some rid ->
  fst (scope_queries (of_opt (split slash rid !! 0%nat)) token w)
  = [Fulfilled r_admin; Fulfilled r_push; Fulfilled r_pull] ->
  statusCode r_admin = 200 -> statusCode r_push = 200 ->
  statusCode r_pull = 200 ->
  get (res_body r_admin) "values" = Return (VArr admins) ->
  get (res_body r_push) "values" = Return (VArr pushers) ->
  get (res_body r_pull) "values" = Return (VArr pullers) ->
  forallb readable admins = true -> forallb readable pushers = true ->
  forallb readable pullers = true ->
  let has_uuid :=
    existsb (fun r => strict_eq (prop r "uuid")
                                (of_opt (split slash rid !! 1%nat))) in
  fst (p w) = Fulfilled {| admin := Some (has_uuid admins);
                           push := Some (has_uuid pushers);
                           pull := Some (has_uuid pullers) |}.
Proof.
  intros Hp Hrid Hq Ha Hb Hc Hva Hvb Hvc Hra Hrb Hrc has_uuid.
  destruct (getPermissions_run scmUri token p w Hp) as (rid' & Hrid' & Hrun).
  rewrite Hrid in Hrid'. injection Hrid' as <-.
  rewrite Hrun, Hq. simpl.
  rewrite (getPerm_then_200 _ _ _ Ha Hva Hra),
          (getPerm_then_200 _ _ _ Hb Hvb Hrb),
          (getPerm_then_200 _ _ _ Hc Hvc Hrc).
  fold has_uuid.
  change [Fulfilled (has_uuid admins); Fulfilled (has_uuid pushers);
          Fulfilled (has_uuid pullers)]
    with (Fulfilled <$> [has_uuid admins; has_uuid pushers; has_uuid pullers]).
  by rewrite Promise_all_of_fulfilled.
Qed.

(** The member that settles first decides, when it is rejected. *)
Lemma Promise_all_first {A} i rest (ps : list (promise A)) e :
  ps !! i = Some (Rejected e) -> Promise_all (i :: rest) ps = Rejected e.
Proof. intros H. unfold Promise_all. simpl. by rewrite H. Qed.

(** X21: when several scope queries fail, the aggregate reports the
    failure of the query that settles first. *)
Theorem getPermissions_first_settled_wins scmUri token p w rid i rest e :
  _getPermissions scmUri token = Return p ->
  split colon scmUri !! 1%nat = Some rid ->
  settle_order (snd (scope_queries (of_opt (split slash rid !! 0%nat)) token w))
  = i :: rest ->
  ((fun r => settle_then r (getPerm_then (of_opt (split slash rid !! 1%nat))))
     <$> fst (scope_queries (of_opt (split slash rid !! 0%nat)) token w)) !! i
  = Some (Rejected e) ->
  fst (p w) = Rejected e.
Proof.
  intros Hp Hrid Horder Hi.
  destruct (getPermissions_run scmUri token p w Hp) as (rid' & Hrid' & Hrun).
  rewrite Hrid in Hrid'. injection Hrid' as <-.
  rewrite Hrun. cbn [fst]. rewrite Horder.
  by rewrite (Promise_all_first _ _ _ _ Hi).
Qed.

(** ** Further properties of [_decorateCommit] *)

Lemma decorateCommit_200 sha scmUri token :
  exists request p,
    _decorateCommit sha scmUri token = Return p /\
    method request = "GET" /\
    forall w commit w1,
      runCommand request w = (Fulfilled commit, w1) ->
      statusCode commit = 200 ->
      p w =
        match author_username (res_body commit) with
        | Throw e => (Rejected e, w1)
        | Return username =>
            then_ (then_ (runCommand
                            (GET (USER_URL +:+ "/" +:+ ToString username) token))
                         (fun response =>
                            _ ← expect_200 response;
                            author_of (res_body response)))
                  (commit_of (res_body commit)) w1
        end.
Proof.
  unfold _decorateCommit. simpl.
  eexists (GET _ token), _. split; [reflexivity|]. split; [reflexivity|].
  intros w commit w1 Hrun H200. unfold then_async. rewrite Hrun.
  rewrite (expect_200_ok _ H200). simpl. unfold author_username.
  destruct (get (res_body commit) "author") as [author|e]; simpl;
    [|reflexivity].
  destruct (get author "user") as [user|e]; simpl; [|reflexivity].
  destruct (get user "username") as [username|e]; simpl; reflexivity.
Qed.


(** X23: a commit whose author has no [user] (an author without an
    account) cannot be decorated: after the 200 on the commit the
    decoration is rejected with a [TypeError], and no author lookup is
    sent. *)
Theorem decorateCommit_without_user sha scmUri token :
  exists request p,
    _decorateCommit sha scmUri token = Return p /\
    method request = "GET" /\
    forall w commit w1 fields author_fields,
      runCommand request w = (Fulfilled commit, w1) ->
      statusCode commit = 200 ->
      res_body commit = VObj fields ->
      field "author" fields = Some (VObj author_fields) ->
      field "user" author_fields = None ->
      p w = (Rejected TypeError, w1).
Proof.
  destruct (decorateCommit_200 sha scmUri token) as (request & p & Hp & Hm & H).
  exists request, p. split; [assumption|]. split; [assumption|].
  intros w commit w1 fields author_fields Hrun H200 Hbody Hauthor Huser.
  rewrite (H w commit w1 Hrun H200), Hbody. unfold author_username. simpl.
  rewrite Hauthor. simpl. by rewrite Huser.
Qed.

(** ** The checkout command *)

(** X24: for a pull request (a non-empty [prRef]) the checkout is ten
    commands: it resets to the branch, and ends with the fetch of the
    pull request ref and the merge of the sha.  Otherwise (no [prRef],
    or an empty one) it is the seven commands up to the committer
    identity, it resets to the sha, and it neither fetches nor merges.
    The clone is the same in both. *)
Theorem checkout_commands_shape (branch host org repo sha : string)
    (prRef : option string) :
  let commands := checkout_commands branch host org repo sha prRef in
  _getCheckoutCommand branch host org repo sha prRef
  = Fulfilled {| Checkout.name := "sd-checkout-code";
                 Checkout.command := join " && " commands |} /\
  take 3 (drop 4 commands)
  = ["echo Setting user name and user email";
     "git config user.name sd-buildbot";
     "git config user.email dev-null@screwdriver.cd"] /\
  take 2 commands = take 2 (checkout_commands branch host org repo sha None) /\
  (forall x, prRef = Some x -> x <> "" ->
     length commands = 10%nat /\
     commands !! 3%nat = Some ("git reset --hard " +:+ branch) /\
     drop 8 commands = ["git fetch origin " +:+ x; "git merge " +:+ sha]) /\
  (prRef = None \/ prRef = Some "" ->
     length commands = 7%nat /\
     commands !! 3%nat = Some ("git reset --hard " +:+ sha)).
Proof.
  intros commands. subst commands. split; [reflexivity|].
  destruct prRef as [[|c s]|]; cbn;
    (split; [reflexivity|]; split; [reflexivity|]; split).
  - intros y [= <-] Hy. congruence.
  - intros _. split; reflexivity.
  - intros y [= <-] _. repeat split; reflexivity.
  - intros [H|H]; discriminate.
  - intros y H. discriminate.
  - intros _. split; reflexivity.
Qed.

(** ** Failures of the transport *)

(** X25: a rejection of the transport is surfaced unchanged by every
    operation that sends one request, and nothing is sent after it: no
    retry, no wrapping. *)
Theorem transport_rejection_surfaces
    (scmUri sha path token checkoutUrl buildStatus targetUrl : string)
    (ref jobName : option string) (username : value) :
  (exists request p,
      _getCommitSha scmUri token = Return p /\ surfaces_rejection p request) /\
  (exists request p,
      _getFile scmUri path token ref = Return p /\
      surfaces_rejection p request) /\
  (exists request p,
      _decorateUrl scmUri token = Return p /\ surfaces_rejection p request) /\
  (exists request p,
      _decorateAuthor username token = Return p /\
      surfaces_rejection p request) /\
  (exists request p,
      _decorateCommit sha scmUri token = Return p /\
      surfaces_rejection p request) /\
  (forall p,
      _parseUrl checkoutUrl token = Return p ->
      exists request, bearer request = token /\ surfaces_rejection p request) /\
  (forall p,
      _updateCommitStatus scmUri sha buildStatus token targetUrl jobName
      = Return p ->
      exists request,
        _updateCommitStatus_options scmUri sha buildStatus token targetUrl
                                    jobName = Return request /\
        surfaces_rejection p request).
Proof.
  unfold surfaces_rejection.
  split; [|split; [|split; [|split; [|split; [|split]]]]].
  - unfold _getCommitSha. simpl. eexists (GET _ token), _.
    split; [reflexivity|]. intros w e w' Hrun. unfold then_. by rewrite Hrun.
  - unfold _getFile. simpl. eexists (GET _ token), _.
    split; [reflexivity|]. intros w e w' Hrun. unfold then_. by rewrite Hrun.
  - unfold _decorateUrl. simpl. eexists (GET _ token), _.
    split; [reflexivity|]. intros w e w' Hrun. unfold then_. by rewrite Hrun.
  - unfold _decorateAuthor. eexists (GET _ token), _.
    split; [reflexivity|]. intros w e w' Hrun. unfold then_. by rewrite Hrun.
  - unfold _decorateCommit. simpl. eexists (GET _ token), _.
    split; [reflexivity|]. intros w e w' Hrun. unfold then_async.
    by rewrite Hrun.
  - intros p. unfold _parseUrl.
    destruct (getRepoInfo checkoutUrl) as [repoInfo|e]; simpl; [|discriminate].
    intros [= <-]. eexists (GET _ token). split; [reflexivity|].
    intros w e w' Hrun. unfold then_. by rewrite Hrun.
  - intros p. unfold _updateCommitStatus.
    destruct (_updateCommitStatus_options _ _ _ _ _ _) as [request|e];
      simpl; [|discriminate].
    intros [= <-]. exists request. split; [reflexivity|].
    intros w e w' Hrun. unfold then_. by rewrite Hrun.
Qed.

End Adapter.

(** C4, as stated, fails: a reference of two parts, and one of four, are
    both decoded without any error. *)
Lemma getScmUriParts_wrong_count_returns :
  length (split colon "bitbucket.org:batman/{uuid}") <> 3%nat /\
  getScmUriParts "bitbucket.org:batman/{uuid}"
  = Return {| hostname := Some "bitbucket.org";
              repoId := Some "batman/{uuid}";
              branch := None |} /\
  length (split colon "a:b:c:d") <> 3%nat /\
  getScmUriParts "a:b:c:d"
  = Return {| hostname := Some "a"; repoId := Some "b"; branch := Some "c" |} /\
  (forall e, getScmUriParts "bitbucket.org:batman/{uuid}" <> Throw e) /\
  (forall e, getScmUriParts "a:b:c:d" <> Throw e).
Proof. repeat split; try (vm_compute; congruence); intros e; discriminate. Qed.

Lemma getScmUriParts_compose_witness :
  getScmUriParts (composeScmUri "bitbucket.org" "batman/{uuid}" "master")
  = Return {| hostname := Some "bitbucket.org";
              repoId := Some "batman/{uuid}";
              branch := Some "master" |}.
Proof.
  apply (getScmUriParts_compose "bitbucket.org" "batman/{uuid}" "master");
    first [discriminate | reflexivity].
Defined.

(** ** Webhook normalization on explicit webhooks *)

(** C1, as stated, fails: of a push with two changes, [main] first and
    [dev] last, the event reports [main], not the last entry. *)
Lemma parseHook_push_last_change_not_reported :
  Sample.hook_headers "repo:push" !! "x-event-key" = Some "repo:push" /\
  reach Sample.two_branch_push "push.changes"
  = VArr [Sample.change "main" "abc123"; Sample.change "dev" "def456"] /\
  last [Sample.change "main" "abc123"; Sample.change "dev" "def456"]
  = Some (Sample.change "dev" "def456") /\
  ~ reports_push_of
      (_parseHook Sample.url_parse_string (Sample.hook_headers "repo:push")
                  Sample.two_branch_push)
      (Sample.change "dev" "def456").
Proof.
  split; [reflexivity|]. split; [reflexivity|]. split; [reflexivity|].
  intros (parsed & Hout & _ & _ & Hbranch & _).
  rewrite parseHook_repo_push in Hout by reflexivity.
  simpl in Hout. injection Hout as <-.
  rewrite lookup_insert_ne, lookup_insert_eq in Hbranch by discriminate.
  discriminate Hbranch.
Qed.

Lemma parseHook_push_reports_first_change_witness :
  reports_push_of
    (_parseHook Sample.url_parse_string (Sample.hook_headers "repo:push")
                Sample.two_branch_push)
    (Sample.change "main" "abc123").
Proof.
  apply (parseHook_push_reports_first_change Sample.url_parse_string
           (Sample.hook_headers "repo:push") Sample.two_branch_push
           (Sample.change "main" "abc123") [Sample.change "dev" "def456"]
           "https://bitbucket.org/batman/test"); reflexivity.
Defined.

(** C10, as stated, fails: a push with an empty change list and no
    repository link is not resolved to an event; [url.parse] throws. *)
Lemma parseHook_push_empty_changes_without_link :
  Sample.hook_headers "repo:push" !! "x-event-key" = Some "repo:push" /\
  reach (VObj [("push", VObj [("changes", VArr [])])]) "push.changes" = VArr [] /\
  _parseHook Sample.url_parse_string (Sample.hook_headers "repo:push")
             (VObj [("push", VObj [("changes", VArr [])])])
  = Throw TypeError /\
  (forall outcome,
      _parseHook Sample.url_parse_string (Sample.hook_headers "repo:push")
                 (VObj [("push", VObj [("changes", VArr [])])])
      <> Return outcome).
Proof. repeat split. intros outcome. discriminate. Qed.

Lemma parseHook_push_empty_changes_witness :
  exists parsed : gmap string value,
    _parseHook Sample.url_parse_string (Sample.hook_headers "repo:push")
               (Sample.push_payload [])
    = Return (Fulfilled (Some parsed)) /\
    parsed !! "type" = Some (VStr "repo") /\
    parsed !! "action" = Some (VStr "push") /\
    parsed !! "branch" = Some VUndefined /\
    parsed !! "sha" = Some VUndefined.
Proof.
  apply (parseHook_push_empty_changes Sample.url_parse_string
           (Sample.hook_headers "repo:push") (Sample.push_payload [])
           "https://bitbucket.org/batman/test"); reflexivity.
Defined.

Lemma parseHook_pullrequest_fulfilled_ignored_witness :
  _parseHook Sample.url_parse_string
             (Sample.hook_headers "pullrequest:fulfilled")
             (Sample.push_payload [])
  = Return (Fulfilled None).
Proof.
  apply (parseHook_pullrequest_fulfilled_ignored Sample.url_parse_string
           (Sample.hook_headers "pullrequest:fulfilled")
           (Sample.push_payload [])); reflexivity.
Defined.

(** The misspelt key is the one that closes. *)
Example parseHook_pullrequest_fullfilled_closes :
  exists parsed : gmap string value,
    _parseHook Sample.url_parse_string
               (Sample.hook_headers "pullrequest:fullfilled")
               (Sample.push_payload [])
    = Return (Fulfilled (Some parsed)) /\
    parsed !! "type" = Some (VStr "pr") /\
    parsed !! "action" = Some (VStr "closed").
Proof.
  apply (parseHook_pullrequest_listed Sample.url_parse_string
           (Sample.hook_headers "pullrequest:fullfilled")
           (Sample.push_payload []) "fullfilled" "closed"
           "https://bitbucket.org/batman/test"); reflexivity.
Qed.

(** ** Resolving explicit checkout URLs *)

(** C3, as stated, fails: the middle field of the resolved reference is
    [batman/{de7d7695}], which holds the owner slug and is not the uuid;
    and the same repository (same uuid) reached through a renamed owner
    resolves to a different reference. *)
Lemma parseUrl_repoId_holds_owner :
  exists p q,
    _parseUrl Sample.net Sample.runCommand Sample.CHECKOUT_URL_exec
              "https://bitbucket.org/batman/test#master" "token"
    = Return p /\
    fst (p (Sample.script [Sample.ok 200 (Sample.branch_body "{de7d7695}")]))
    = Fulfilled "bitbucket.org:batman/{de7d7695}:master" /\
    getScmUriParts "bitbucket.org:batman/{de7d7695}:master"
    = Return {| hostname := Some "bitbucket.org";
                repoId := Some "batman/{de7d7695}";
                branch := Some "master" |} /\
    "batman/{de7d7695}" <> "{de7d7695}" /\
    _parseUrl Sample.net Sample.runCommand Sample.CHECKOUT_URL_exec
              "https://bitbucket.org/gotham/test#master" "token"
    = Return q /\
    fst (q (Sample.script [Sample.ok 200 (Sample.branch_body "{de7d7695}")]))
    = Fulfilled "bitbucket.org:gotham/{de7d7695}:master" /\
    "bitbucket.org:gotham/{de7d7695}:master"
    <> "bitbucket.org:batman/{de7d7695}:master".
Proof.
  eexists _, _.
  split; [reflexivity|]. split; [reflexivity|]. split; [reflexivity|].
  split; [discriminate|].
  split; [reflexivity|]. split; [reflexivity | discriminate].
Qed.

Lemma parseUrl_reference_witness :
  exists p w',
    _parseUrl Sample.net Sample.runCommand Sample.CHECKOUT_URL_exec
              "https://bitbucket.org/batman/test#master" "token"
    = Return p /\
    resolved_reference Sample.net Sample.runCommand Sample.CHECKOUT_URL_exec
      "https://bitbucket.org/batman/test#master"
      (Sample.script [Sample.ok 200 (Sample.branch_body "{de7d7695}")])
      "bitbucket.org:batman/{de7d7695}:master" w'.
Proof.
  eexists _, _. split; [reflexivity|].
  eapply (parseUrl_reference Sample.net Sample.runCommand
            Sample.CHECKOUT_URL_exec
            "https://bitbucket.org/batman/test#master" "token");
    reflexivity.
Defined.

(** A renamed repo slug resolves to the same reference. *)
Example parseUrl_repo_rename :
  exists p,
    _parseUrl Sample.net Sample.runCommand Sample.CHECKOUT_URL_exec
              "https://bitbucket.org/batman/renamed#master" "token"
    = Return p /\
    fst (p (Sample.script [Sample.ok 200 (Sample.branch_body "{de7d7695}")]))
    = Fulfilled "bitbucket.org:batman/{de7d7695}:master".
Proof. eexists. split; reflexivity. Qed.

(** ** Permissions on explicit answers *)

(** C6, as stated, fails: beside a push query answered with a 500, an
    admin query that the transport fails, or that is answered with a 200
    without a list, settles first and decides the error of the aggregate,
    which then is not the status error. *)
Lemma getPermissions_500_beside_other_failure :
  exists p,
    _getPermissions Sample.net Sample.runCommand Sample.in_request_order
                    "bitbucket.org:batman/{de7d7695}:master" "token"
    = Return p /\
    fst (p (Sample.script [Rejected (TransportError "ECONNRESET");
                           Sample.ok 500 VNull;
                           Sample.ok 200 (Sample.repos ["{de7d7695}"])]))
    = Rejected (TransportError "ECONNRESET") /\
    is_UpstreamError (TransportError "ECONNRESET") = false /\
    fst (p (Sample.script [Sample.ok 200 VNull;
                           Sample.ok 500 VNull;
                           Sample.ok 200 (Sample.repos ["{de7d7695}"])]))
    = Rejected TypeError /\
    is_UpstreamError TypeError = false /\
    ~ (200 <= 500 < 300).
Proof. eexists. repeat split. lia. Qed.

Lemma getPermissions_fails_as_a_whole_witness :
  exists p,
    _getPermissions Sample.net Sample.runCommand Sample.in_request_order
                    "bitbucket.org:batman/{de7d7695}:master" "token"
    = Return p /\
    all_or_nothing Sample.net Sample.runCommand
      "bitbucket.org:batman/{de7d7695}:master" "token" p
      (Sample.script [Sample.ok 200 (Sample.repos ["{de7d7695}"]);
                       Sample.ok 500 VNull;
                       Sample.ok 200 (Sample.repos ["{de7d7695}"])]).
Proof.
  eexists. split; [reflexivity|].
  apply (getPermissions_fails_as_a_whole Sample.net Sample.runCommand
           Sample.in_request_order
           "bitbucket.org:batman/{de7d7695}:master" "token").
  reflexivity.
Defined.

(** The push query fails with a 500 while admin and pull succeed: the
    aggregate is that status error, whatever the order of settlement; with
    three 200 answers the three fields are the membership tests. *)
Example getPermissions_push_500 :
  exists p q,
    _getPermissions Sample.net Sample.runCommand Sample.in_request_order
                    "bitbucket.org:batman/{de7d7695}:master" "token"
    = Return p /\
    _getPermissions Sample.net Sample.runCommand Sample.in_reverse_order
                    "bitbucket.org:batman/{de7d7695}:master" "token"
    = Return q /\
    fst (p (Sample.script [Sample.ok 200 (Sample.repos ["{de7d7695}"]);
                            Sample.ok 500 VNull;
                            Sample.ok 200 (Sample.repos ["{de7d7695}"])]))
    = Rejected (StatusCodeError 500 VNull) /\
    fst (q (Sample.script [Sample.ok 200 (Sample.repos ["{de7d7695}"]);
                            Sample.ok 500 VNull;
                            Sample.ok 200 (Sample.repos ["{de7d7695}"])]))
    = Rejected (StatusCodeError 500 VNull) /\
    fst (p (Sample.script [Sample.ok 200 (Sample.repos ["{other}"]);
                            Sample.ok 200 (Sample.repos []);
                            Sample.ok 200 (Sample.repos ["{other}"; "{de7d7695}"])]))
    = Fulfilled {| admin := Some false; push := Some false; pull := Some true |} /\
    (url <$> Sample.sent
       (snd (p (Sample.script [Sample.ok 200 (Sample.repos []);
                                Sample.ok 200 (Sample.repos []);
                                Sample.ok 200 (Sample.repos [])]))))
    = ["https://api.bitbucket.org/2.0/repositories/batman?role=admin";
       "https://api.bitbucket.org/2.0/repositories/batman?role=contributor";
       "https://api.bitbucket.org/2.0/repositories/batman"].
Proof. eexists _, _. repeat split. Qed.

(** ** Status translation on explicit builds *)

Lemma updateCommitStatus_state_and_description_witness :
  let request :=
    {| url := "https://api.bitbucket.org/2.0/repositories/batman/{de7d7695}"
                +:+ "/commit/40171b67/statuses/build";
       method := "POST"; json := true;
       body := VObj [("url", VStr "https://ci.example/builds/1");
                     ("state", VStr "INPROGRESS");
                     ("key", VStr "40171b67");
                     ("description", VStr "Screwdriver/main")];
       bearer := "token" |} in
  _updateCommitStatus_options Sample.decodeURIComponent
    "bitbucket.org:batman/{de7d7695}:master" "40171b67" "QUEUED" "token"
    "https://ci.example/builds/1" (Some "main")
  = Return request /\
  prop (body request) "state" = VStr "INPROGRESS" /\
  prop (body request) "description" = VStr "Screwdriver/main".
Proof.
  intros request.
  assert (Hopt :
    _updateCommitStatus_options Sample.decodeURIComponent
      "bitbucket.org:batman/{de7d7695}:master" "40171b67" "QUEUED" "token"
      "https://ci.example/builds/1" (Some "main") = Return request)
    by reflexivity.
  destruct (updateCommitStatus_state_and_description Sample.net
              Sample.runCommand Sample.decodeURIComponent
              "bitbucket.org:batman/{de7d7695}:master" "40171b67" "QUEUED"
              "token" "https://ci.example/builds/1" (Some "main") request Hopt)
    as (_ & _ & _ & Hstate & Hdesc & _).
  split; [exact Hopt|]. split.
  - apply Hstate. unfold status_table.
    do 2 (apply elem_of_cons; right). apply elem_of_cons. by left.
  - apply (Hdesc "main"); [reflexivity | discriminate].
Defined.

(** Without a job name, and with an empty one, the description is the
    bare product name. *)
Example updateCommitStatus_without_jobName :
  prop (status_body "40171b67" "SUCCESS" "https://ci.example/builds/1" None)
       "description" = VStr "Screwdriver" /\
  prop (status_body "40171b67" "SUCCESS" "https://ci.example/builds/1" (Some ""))
       "description" = VStr "Screwdriver" /\
  prop (status_body "40171b67" "SUCCESS" "https://ci.example/builds/1" None)
       "state" = VStr "SUCCESSFUL".
Proof. repeat split. Qed.

(** ** The read lookups on explicit answers *)

(** C8, as stated, fails: on a 404 [getCommitSha] is rejected with the
    status error, which is not the NotFoundError; and on a 204, a 2xx, it
    is rejected as well.  [getFile] and [decorateCommit] do the same. *)
Lemma read_lookups_404_and_204 :
  exists p f d,
    _getCommitSha Sample.net Sample.runCommand
                  "bitbucket.org:batman/{de7d7695}:master" "token" = Return p /\
    _getFile Sample.net Sample.runCommand
             "bitbucket.org:batman/{de7d7695}:master" "screwdriver.yaml" "token"
             None = Return f /\
    _decorateCommit Sample.net Sample.runCommand "40171b67"
                    "bitbucket.org:batman/{de7d7695}:master" "token" = Return d /\
    fst (p (Sample.script [Sample.ok 404 VNull]))
    = Rejected (StatusCodeError 404 VNull) /\
    fst (f (Sample.script [Sample.ok 404 VNull]))
    = Rejected (StatusCodeError 404 VNull) /\
    fst (d (Sample.script [Sample.ok 404 VNull]))
    = Rejected (StatusCodeError 404 VNull) /\
    is_NotFoundError (StatusCodeError 404 VNull) = false /\
    200 <= 204 < 300 /\
    fst (p (Sample.script [Sample.ok 204 VNull]))
    = Rejected (StatusCodeError 204 VNull) /\
    fst (f (Sample.script [Sample.ok 204 VNull]))
    = Rejected (StatusCodeError 204 VNull) /\
    fst (d (Sample.script [Sample.ok 204 VNull]))
    = Rejected (StatusCodeError 204 VNull).
Proof. eexists _, _, _. repeat split; lia. Qed.

(** A 200 on the branch lookup resolves to the hash of its target. *)
Example getCommitSha_200 :
  exists p,
    _getCommitSha Sample.net Sample.runCommand
                  "bitbucket.org:batman/{de7d7695}:master" "token" = Return p /\
    fst (p (Sample.script [Sample.ok 200 (Sample.branch_body "{de7d7695}")]))
    = Fulfilled (VStr "40171b67").
Proof. eexists. split; reflexivity. Qed.

(** ** Further properties on explicit inputs *)

Lemma parseHook_repo_other_action_ignored_witness :
  _parseHook Sample.url_parse_string (Sample.hook_headers "repo:fork") VNull
  = Return (Fulfilled None).
Proof.
  apply (parseHook_repo_other_action_ignored Sample.url_parse_string
           (Sample.hook_headers "repo:fork") VNull "repo:fork");
    first [reflexivity | discriminate].
Defined.

Lemma parseHook_other_category_ignored_witness :
  _parseHook Sample.url_parse_string (Sample.hook_headers "issue:created") VNull
  = Return (Fulfilled None).
Proof.
  apply (parseHook_other_category_ignored Sample.url_parse_string
           (Sample.hook_headers "issue:created") VNull "issue:created");
    first [reflexivity | discriminate].
Defined.

Lemma parseHook_throws_witness :
  _parseHook Sample.url_parse_string (Sample.hook_headers "pullrequest:updated")
             (VObj [("pullrequest", VObj [("id", VNum 3)])])
  = Throw TypeError.
Proof.
  apply (parseHook_throws Sample.url_parse_string
           (Sample.hook_headers "pullrequest:updated")
           (VObj [("pullrequest", VObj [("id", VNum 3)])])).
  right. split; [|discriminate].
  right. exists "updated", "synchronized". repeat split.
Defined.

(** A push whose payload is an array fails the assertion of
    [hoek.reach]. *)
Example parseHook_push_array_payload :
  _parseHook Sample.url_parse_string (Sample.hook_headers "repo:push")
             (VArr [Sample.two_branch_push])
  = Throw (InvalidSegment "changes" "push.changes").
Proof. reflexivity. Qed.

Lemma parseHook_pullrequest_fields_witness :
  reports_pr_of
    (_parseHook Sample.url_parse_string
                (Sample.hook_headers "pullrequest:created")
                Sample.pullrequest_payload)
    Sample.pullrequest_payload "opened".
Proof.
  apply (parseHook_pullrequest_fields Sample.url_parse_string
           (Sample.hook_headers "pullrequest:created")
           Sample.pullrequest_payload "created" "opened"
           "https://bitbucket.org/batman/test"); reflexivity.
Defined.

Lemma parseHook_reads_two_parts_witness :
  _parseHook Sample.url_parse_string (Sample.hook_headers "repo:push")
             Sample.two_branch_push
  = _parseHook Sample.url_parse_string (Sample.hook_headers "repo:push:extra")
               Sample.two_branch_push.
Proof.
  apply (parseHook_reads_two_parts Sample.url_parse_string
           (Sample.hook_headers "repo:push")
           (Sample.hook_headers "repo:push:extra")
           "repo:push" "repo:push:extra" Sample.two_branch_push);
    reflexivity.
Defined.

Lemma parseHook_push_without_changes_witness :
  _parseHook Sample.url_parse_string (Sample.hook_headers "repo:push")
             Sample.link_only_payload
  = Throw TypeError /\
  exists parsed : gmap string value,
    _parseHook Sample.url_parse_string (Sample.hook_headers "repo:push")
               (Sample.push_payload_with (VNum 5))
    = Return (Fulfilled (Some parsed)) /\
    parsed !! "type" = Some (VStr "repo") /\
    parsed !! "action" = Some (VStr "push").
Proof.
  split.
  - apply (parseHook_push_without_changes Sample.url_parse_string
             (Sample.hook_headers "repo:push") Sample.link_only_payload
             "https://bitbucket.org/batman/test");
      [reflexivity | reflexivity | left; reflexivity].
  - apply (parseHook_push_without_changes Sample.url_parse_string
             (Sample.hook_headers "repo:push")
             (Sample.push_payload_with (VNum 5))
             "https://bitbucket.org/batman/test");
      [reflexivity | reflexivity | discriminate | discriminate].
Defined.

Lemma parseHook_push_deleted_branch_witness :
  exists parsed : gmap string value,
    _parseHook Sample.url_parse_string (Sample.hook_headers "repo:push")
               (Sample.push_payload [Sample.deletion])
    = Return (Fulfilled (Some parsed)) /\
    parsed !! "type" = Some (VStr "repo") /\
    parsed !! "action" = Some (VStr "push") /\
    parsed !! "branch" = Some VUndefined /\
    parsed !! "sha" = Some VUndefined.
Proof.
  apply (parseHook_push_deleted_branch Sample.url_parse_string
           (Sample.hook_headers "repo:push")
           (Sample.push_payload [Sample.deletion])
           [("old", VObj [("name", VStr "stale")]); ("new", VNull)] []
           "https://bitbucket.org/batman/test"); reflexivity.
Defined.

Lemma parseHook_event_well_formed_witness :
  exists parsed : gmap string value,
    _parseHook Sample.url_parse_string
               (Sample.hook_headers "pullrequest:rejected")
               Sample.pullrequest_payload
    = Return (Fulfilled (Some parsed)) /\
    well_formed_event (Sample.hook_headers "pullrequest:rejected") parsed.
Proof.
  eexists. split; [reflexivity|].
  apply (parseHook_event_well_formed Sample.url_parse_string
           (Sample.hook_headers "pullrequest:rejected")
           Sample.pullrequest_payload).
  reflexivity.
Defined.

Lemma getScmUriParts_truncates_branch_witness :
  getScmUriParts "bitbucket.org:batman/{de7d7695}:release:1.0"
  = Return {| hostname := Some "bitbucket.org";
              repoId := Some "batman/{de7d7695}";
              branch := Some "release" |}.
Proof.
  apply (getScmUriParts_truncates_branch "bitbucket.org" "batman/{de7d7695}"
           "release:1.0"); reflexivity.
Defined.

Lemma parseUrl_throws_without_branch_witness :
  _parseUrl Sample.net Sample.runCommand Sample.CHECKOUT_URL_exec
            "https://bitbucket.org/batman/test" "token"
  = Throw TypeError.
Proof.
  apply (parseUrl_throws_without_branch Sample.net Sample.runCommand
           Sample.CHECKOUT_URL_exec "https://bitbucket.org/batman/test" "token").
  right. eexists. split; reflexivity.
Defined.

Lemma parseUrl_status_errors_witness :
  exists p,
    _parseUrl Sample.net Sample.runCommand Sample.CHECKOUT_URL_exec
              "https://bitbucket.org/batman/test#master" "token"
    = Return p /\
    fst (p (Sample.script [Sample.ok 404 VNull]))
    = Rejected (CannotFindRepository "https://bitbucket.org/batman/test#master") /\
    fst (p (Sample.script [Sample.ok 403 VNull]))
    = Rejected (StatusCodeError 403 VNull).
Proof.
  eexists. split; [reflexivity|].
  edestruct (parseUrl_status_errors Sample.net Sample.runCommand
               Sample.CHECKOUT_URL_exec
               "https://bitbucket.org/batman/test#master" "token")
    as (request & _ & _ & H); [reflexivity|].
  destruct (H (Sample.script [Sample.ok 404 VNull]) _ _ eq_refl) as [H404 _].
  destruct (H (Sample.script [Sample.ok 403 VNull]) _ _ eq_refl) as [_ H403].
  split.
  - by rewrite (H404 eq_refl).
  - rewrite H403; [reflexivity | discriminate | discriminate].
Defined.

Lemma lookups_address_repoId_witness :
  exists cb,
    _getCommitSha Sample.net Sample.runCommand
                  "bitbucket.org:batman/{de7d7695}:master" "token"
    = Return (then_ Sample.net
                (Sample.runCommand
                   (GET ("https://api.bitbucket.org/2.0/repositories"
                           +:+ "/batman/{de7d7695}/refs/branches/master")
                        "token")) cb).
Proof.
  destruct (lookups_address_repoId Sample.net Sample.runCommand
              "bitbucket.org" "batman/{de7d7695}" "master" "40171b67" "token"
              eq_refl eq_refl eq_refl) as (H & _ & _).
  exact H.
Defined.

Lemma getCommitSha_of_one_part_reference_witness :
  exists cb,
    _getCommitSha Sample.net Sample.runCommand "bitbucket.org" "token"
    = Return (then_ Sample.net
                (Sample.runCommand
                   (GET ("https://api.bitbucket.org/2.0/repositories"
                           +:+ "/undefined/refs/branches/undefined")
                        "token")) cb).
Proof.
  exact (getCommitSha_of_one_part_reference Sample.net Sample.runCommand
           "bitbucket.org" "token" eq_refl).
Defined.

Lemma getFile_ref_precedence_witness :
  exists cb,
    _getFile Sample.net Sample.runCommand
             "bitbucket.org:batman/{de7d7695}:master" "screwdriver.yaml" "token"
             (Some "feature")
    = Return (then_ Sample.net
                (Sample.runCommand
                   (GET ("https://api.bitbucket.org/1.0/repositories"
                           +:+ "/batman/{de7d7695}/src/feature/screwdriver.yaml")
                        "token")) cb).
Proof.
  destruct (getFile_ref_precedence Sample.net Sample.runCommand
              "bitbucket.org" "batman/{de7d7695}" "master" "screwdriver.yaml"
              "token" (Some "feature") eq_refl eq_refl eq_refl) as [H _].
  apply (H "feature"); [reflexivity | discriminate].
Defined.


(** On a 200 the decorated URL takes its branch from the reference. *)
Example decorateUrl_200 :
  exists p,
    _decorateUrl Sample.net Sample.runCommand
                 "bitbucket.org:batman/{de7d7695}:master" "token" = Return p /\
    fst (p (Sample.script [Sample.ok 200 Sample.repository_body]))
    = Fulfilled (VObj [("url", VStr "https://bitbucket.org/batman/test");
                       ("name", VStr "batman/test");
                       ("branch", VStr "master")]).
Proof. eexists. split; reflexivity. Qed.

Lemma updateCommitStatus_accepts_200_201_witness :
  exists p,
    _updateCommitStatus Sample.net Sample.runCommand Sample.decodeURIComponent
      "bitbucket.org:batman/{de7d7695}:master" "40171b67" "SUCCESS" "token"
      "https://ci.example/builds/1" None = Return p /\
    fst (p (Sample.script [Sample.ok 201 VNull]))
    = Fulfilled {| statusCode := 201; res_body := VNull |} /\
    fst (p (Sample.script [Sample.ok 204 VNull]))
    = Rejected (StatusCodeError 204 VNull).
Proof.
  eexists. split; [reflexivity|].
  edestruct (updateCommitStatus_accepts_200_201 Sample.net Sample.runCommand
               Sample.decodeURIComponent
               "bitbucket.org:batman/{de7d7695}:master" "40171b67" "SUCCESS"
               "token" "https://ci.example/builds/1" None)
    as (request & _ & H); [reflexivity|].
  destruct (H (Sample.script [Sample.ok 201 VNull]) _ _ eq_refl) as [H201 _].
  destruct (H (Sample.script [Sample.ok 204 VNull]) _ _ eq_refl) as [_ H204].
  split.
  - rewrite H201; [reflexivity | right; reflexivity].
  - rewrite H204; [reflexivity | discriminate | discriminate].
Defined.

Lemma updateCommitStatus_unknown_status_witness :
  exists request,
    _updateCommitStatus_options Sample.decodeURIComponent
      "bitbucket.org:batman/{de7d7695}:master" "40171b67" "CREATED" "token"
      "https://ci.example/builds/1" None = Return request /\
    prop (body request) "state" = VUndefined.
Proof.
  eexists. split; [reflexivity|].
  eapply proj1.
  eapply (updateCommitStatus_unknown_status Sample.net Sample.runCommand
            Sample.decodeURIComponent
            "bitbucket.org:batman/{de7d7695}:master" "40171b67" "CREATED"
            "token" "https://ci.example/builds/1" None); [reflexivity| |].
  - intros state H. unfold status_table in H.
    repeat (apply elem_of_cons in H as [H|H]; [discriminate|]).
    by apply elem_of_nil in H.
  - intros H. unfold Object_prototype_names in H.
    repeat (apply elem_of_cons in H as [H|H]; [discriminate|]).
    by apply elem_of_nil in H.
Defined.

Lemma updateCommitStatus_token_witness :
  _updateCommitStatus Sample.net Sample.runCommand Sample.refuse_percent
    "bitbucket.org:batman/{de7d7695}:master" "40171b67" "SUCCESS" "100%"
    "https://ci.example/builds/1" None
  = Throw URIError.
Proof.
  exact (updateCommitStatus_token Sample.net Sample.runCommand
           Sample.refuse_percent "bitbucket.org" "batman/{de7d7695}" "master"
           "40171b67" "SUCCESS" "100%" "https://ci.example/builds/1" None
           eq_refl eq_refl eq_refl).
Defined.

Lemma getPermissions_throws_without_repoId_witness :
  _getPermissions Sample.net Sample.runCommand Sample.in_request_order
                  "bitbucket.org" "token"
  = Throw TypeError.
Proof.
  exact (getPermissions_throws_without_repoId Sample.net Sample.runCommand
           Sample.in_request_order "bitbucket.org" "token" eq_refl).
Defined.

Lemma getPermissions_membership_witness :
  exists p,
    _getPermissions Sample.net Sample.runCommand Sample.in_reverse_order
                    "bitbucket.org:batman/{de7d7695}:master" "token"
    = Return p /\
    fst (p (Sample.script
              [Sample.ok 200 (Sample.repos ["{other}"]);
               Sample.ok 200 (Sample.repos ["{de7d7695}"]);
               Sample.ok 200 (Sample.repos ["{other}"; "{de7d7695}"])]))
    = Fulfilled {| admin := Some false; push := Some true; pull := Some true |}.
Proof.
  eexists. split; [reflexivity|].
  eapply (getPermissions_membership Sample.net Sample.runCommand
            Sample.in_reverse_order
            "bitbucket.org:batman/{de7d7695}:master" "token" _ _
            "batman/{de7d7695}" _ _ _
            [VObj [("uuid", VStr "{other}")]]
            [VObj [("uuid", VStr "{de7d7695}")]]
            [VObj [("uuid", VStr "{other}")]; VObj [("uuid", VStr "{de7d7695}")]]);
    reflexivity.
Defined.

Lemma getPermissions_first_settled_wins_witness :
  exists p,
    _getPermissions Sample.net Sample.runCommand Sample.in_reverse_order
                    "bitbucket.org:batman/{de7d7695}:master" "token"
    = Return p /\
    fst (p (Sample.script [Sample.ok 500 VNull;
                           Sample.ok 200 (Sample.repos []);
                           Sample.ok 503 VNull]))
    = Rejected (StatusCodeError 503 VNull).
Proof.
  eexists. split; [reflexivity|].
  eapply (getPermissions_first_settled_wins Sample.net Sample.runCommand
            Sample.in_reverse_order
            "bitbucket.org:batman/{de7d7695}:master" "token" _ _
            "batman/{de7d7695}" 2%nat [1; 0]%nat); reflexivity.
Defined.


Lemma decorateCommit_without_user_witness :
  exists p,
    _decorateCommit Sample.net Sample.runCommand "40171b67"
                    "bitbucket.org:batman/{de7d7695}:master" "token"
    = Return p /\
    fst (p (Sample.script [Sample.ok 200 Sample.commit_body_without_user;
                           Sample.ok 200 VNull]))
    = Rejected TypeError /\
    length (Sample.pending
              (snd (p (Sample.script
                         [Sample.ok 200 Sample.commit_body_without_user;
                          Sample.ok 200 VNull]))))
    = 1%nat.
Proof.
  destruct (decorateCommit_without_user Sample.net Sample.runCommand
              "40171b67" "bitbucket.org:batman/{de7d7695}:master" "token")
    as (request & p & Hp & _ & H).
  exists p. split; [exact Hp|].
  rewrite (H (Sample.script [Sample.ok 200 Sample.commit_body_without_user;
                             Sample.ok 200 VNull])
             _ _ _ _ eq_refl eq_refl eq_refl eq_refl eq_refl).
  split; reflexivity.
Defined.

(** A decorated commit, author included. *)
Example decorateCommit_with_author :
  exists p,
    _decorateCommit Sample.net Sample.runCommand "40171b67"
                    "bitbucket.org:batman/{de7d7695}:master" "token"
    = Return p /\
    fst (p (Sample.script
              [Sample.ok 200 (Sample.commit_body "robin");
               Sample.ok 200
                 (VObj [("username", VStr "robin");
                        ("display_name", VStr "Robin");
                        ("links",
                         VObj [("html", VObj [("href", VStr "https://bitbucket.org/robin")]);
                               ("avatar", VObj [("href", VStr "https://bitbucket.org/robin.png")])])])]))
    = Fulfilled
        (VObj [("url", VStr "https://bitbucket.org/c/1");
               ("message", VStr "fix the build");
               ("author",
                VObj [("url", VStr "https://bitbucket.org/robin");
                      ("name", VStr "Robin");
                      ("username", VStr "robin");
                      ("avatar", VStr "https://bitbucket.org/robin.png")])]).
Proof. eexists. split; reflexivity. Qed.

(** The checkout of a pull request, as one command line. *)
Example getCheckoutCommand_pull_request :
  _getCheckoutCommand "master" "bitbucket.org" "batman" "test" "40171b67"
                      (Some "feature")
  = Fulfilled
      {| Checkout.name := "sd-checkout-code";
         Checkout.command :=
           "echo Cloning https://bitbucket.org/batman/test, on branch master && "
           +:+ "git clone --quiet --progress --branch master "
           +:+ "https://bitbucket.org/batman/test $SD_SOURCE_DIR && "
           +:+ "echo Reset to SHA master && git reset --hard master && "
           +:+ "echo Setting user name and user email && "
           +:+ "git config user.name sd-buildbot && "
           +:+ "git config user.email dev-null@screwdriver.cd && "
           +:+ "echo Fetching PR and merging with master && "
           +:+ "git fetch origin feature && git merge 40171b67" |}.
Proof. reflexivity. Qed.
